(** * The BEHAVANA service worker (src/service-worker.js), embedded in Rocq

    The worker is a short event-driven script over three platform
    services: the cache storage ([caches]), the network ([fetch]) and the
    worker life cycle ([skipWaiting], [clients.claim]).  The script is
    embedded function by function; the platform is an explicit [World]:

    - the cache storage is the ordered "name to cache" map of the Cache
      API, each cache its "request response list";
    - [Response] objects live in a heap, so that [clone] and the
      consumption of a body by [cache.put] are visible;
    - a promise that the script does not await ([cache.put], the call of
      [updateCache]) is a pending [Task] of the world: it settles in a later
      turn of the event loop;
    - every platform call and console line is recorded in a trace.

    Left out of the platform model: headers ([Vary] matching), URL
    fragments, the scheme restriction of [cache.put], storage quota, and the
    interleaving of two handlers between their awaits (a handler runs up to
    the settlement of its promise in one step).  Two moments are therefore
    not told apart: [Promise.all] hands on the world in which every promise
    of its array has settled, also when it rejects, and the fetch of a
    refresh is recorded in the trace when the refresh runs, not when it is
    called.  The push and notification-click handlers do not touch the
    cache and are not embedded. *)

From Stdlib Require Import String ZArith List Bool Lia.
From stdpp Require Import base list.
Import ListNotations.
Local Open Scope string_scope.
Local Open Scope list_scope.
Local Open Scope Z_scope.

(** ** Data model *)

(** A parsed URL, as [new URL(request.url)] exposes it.  [host] carries the
    port when there is one, [path] is the pathname followed by the query. *)
Record URL := mkURL { protocol : string; host : string; path : string }.

Definition origin (u : URL) : string := (protocol u ++ "//" ++ host u)%string.
Definition href (u : URL) : string := (origin u ++ path u)%string.

Record Request := mkRequest {
  method : string;
  url : URL;
  destination : string
}.

Record ResponseData := mkResponseData {
  status : Z;
  statusText : string;
  body : string
}.

(** A [Response] object: its content and whether its body stream has been
    handed out ([bodyUsed]). *)
Record Response := mkResponse { data : ResponseData; bodyUsed : bool }.

Definition RespId := nat.

Definition Cache := list (Request * ResponseData).
Definition CacheStorage := list (string * Cache).

Inductive Err := TypeError (msg : string).

Inductive Result (A : Type) :=
| Ok (a : A)
| Throw (e : Err).
Arguments Ok {A} a.
Arguments Throw {A} e.

Inductive Level := LLog | LWarn | LError.

Inductive Effect :=
| Console (lvl : Level) (msg : string)
| CachesOpen (name : string)
| CachesMatch (u : string)
| CachesKeys
| CachesDelete (name : string)
| CachePut (name : string) (u : string)
| CacheAddAll (name : string) (urls : list string)
| NetFetch (u : string)
| SkipWaiting
| ClientsClaim.

(** Promises nobody awaits. *)
Inductive Task :=
| TPut (cacheName : string) (request : Request) (response : ResponseData)
| TUpdateCache (request : Request) (cacheName : string).

(** ServiceWorker.state *)
Inductive Phase := Installing | Installed | Activating | Activated | Redundant.

Record World := mkWorld {
  caches : CacheStorage;      (* enumeration order = creation order *)
  heap : list Response;       (* Response objects, by identity *)
  pending : list Task;        (* promises not yet settled, oldest first *)
  trace : list Effect;        (* most recent first *)
  skipWaitingFlag : bool;
  phase : Phase
}.

(** [fetch] seen from the worker: [None] when the promise rejects. *)
Definition Network := Request -> option ResponseData.

Definition offline : Network := fun _ => None.

(** ** The monad of handler code: state, and exceptions that keep the state *)

Definition M (A : Type) : Type := World -> Result A * World.

Definition ret {A} (a : A) : M A := fun w => (Ok a, w).

Definition bind {A B} (m : M A) (k : A -> M B) : M B :=
  fun w => match m w with
           | (Ok a, w') => k a w'
           | (Throw e, w') => (Throw e, w')
           end.

Definition throw {A} (e : Err) : M A := fun w => (Throw e, w).

Definition try_catch {A} (m : M A) (h : Err -> M A) : M A :=
  fun w => match m w with
           | (Ok a, w') => (Ok a, w')
           | (Throw e, w') => h e w'
           end.

Notation "'let*' x ':=' c1 'in' c2" := (bind c1 (fun x => c2))
  (at level 10, x name, c1 at level 100, c2 at level 200).
Notation "'do' c1 'then' c2" := (bind c1 (fun _ => c2))
  (at level 10, c1 at level 100, c2 at level 200).

Definition set_caches (f : CacheStorage -> CacheStorage) (w : World) : World :=
  mkWorld (f (caches w)) (heap w) (pending w) (trace w) (skipWaitingFlag w) (phase w).
Definition set_heap (f : list Response -> list Response) (w : World) : World :=
  mkWorld (caches w) (f (heap w)) (pending w) (trace w) (skipWaitingFlag w) (phase w).
Definition set_pending (f : list Task -> list Task) (w : World) : World :=
  mkWorld (caches w) (heap w) (f (pending w)) (trace w) (skipWaitingFlag w) (phase w).
Definition set_trace (f : list Effect -> list Effect) (w : World) : World :=
  mkWorld (caches w) (heap w) (pending w) (f (trace w)) (skipWaitingFlag w) (phase w).
Definition set_skipWaitingFlag (b : bool) (w : World) : World :=
  mkWorld (caches w) (heap w) (pending w) (trace w) b (phase w).
Definition set_phase (p : Phase) (w : World) : World :=
  mkWorld (caches w) (heap w) (pending w) (trace w) (skipWaitingFlag w) p.

Definition emit (e : Effect) : M unit :=
  fun w => (Ok tt, set_trace (cons e) w).

Definition console_log (msg : string) : M unit := emit (Console LLog msg).
Definition console_warn (msg : string) : M unit := emit (Console LWarn msg).
Definition console_error (msg : string) : M unit := emit (Console LError msg).

(** ** The platform *)

(** *** Response objects *)

Definition alloc (r : Response) : M RespId :=
  fun w => (Ok (length (heap w)), set_heap (fun h => h ++ [r]) w).

(** [new Response(body, {status, statusText})] *)
Definition new_Response (b : string) (st : Z) (txt : string) : M RespId :=
  alloc (mkResponse (mkResponseData st txt b) false).

Definition response_get (rid : RespId) : M Response :=
  fun w => match heap w !! rid with
           | Some r => (Ok r, w)
           | None => (Throw (TypeError "not a Response"), w)
           end.

(** [response.clone()]: a TypeError when the body is already used. *)
Definition response_clone (rid : RespId) : M RespId :=
  let* r := response_get rid in
  if bodyUsed r then throw (TypeError "Response body is already used")
  else alloc (mkResponse (data r) false).

Definition mark_used (rid : RespId) : M unit :=
  fun w => (Ok tt,
            set_heap (fun h => match h !! rid with
                               | Some r => <[rid := mkResponse (data r) true]> h
                               | None => h
                               end) w).

(** *** The network *)

Definition fetch (net : Network) (request : Request) : M RespId :=
  do emit (NetFetch (href (url request))) then
  match net request with
  | Some d => alloc (mkResponse d false)
  | None => throw (TypeError "Failed to fetch")
  end.

(** *** Cache: the request response list *)

(** "request matches cached item": only a GET query matches, on its URL. *)
Definition request_matches (query cached : Request) : bool :=
  String.eqb (method query) "GET"
  && String.eqb (href (url query)) (href (url cached)).

Fixpoint cache_match (c : Cache) (query : Request) : option ResponseData :=
  match c with
  | [] => None
  | (r, d) :: c' => if request_matches query r then Some d else cache_match c' query
  end.

(** The put operation of a batch: matching items are removed, the new item
    is appended. *)
Definition cache_store (request : Request) (d : ResponseData) (c : Cache) : Cache :=
  List.filter (fun e => negb (request_matches request (fst e))) c ++ [(request, d)].

(** *** CacheStorage: the name to cache map *)

Fixpoint storage_get (cs : CacheStorage) (name : string) : option Cache :=
  match cs with
  | [] => None
  | (n, c) :: cs' => if String.eqb n name then Some c else storage_get cs' name
  end.

(** [caches.match]: the caches are queried in order, the first hit wins. *)
Fixpoint storage_match (cs : CacheStorage) (query : Request) : option ResponseData :=
  match cs with
  | [] => None
  | (_, c) :: cs' =>
      match cache_match c query with
      | Some d => Some d
      | None => storage_match cs' query
      end
  end.

Definition storage_open (name : string) (cs : CacheStorage) : CacheStorage :=
  match storage_get cs name with
  | Some _ => cs
  | None => cs ++ [(name, [])]
  end.

Definition storage_delete (name : string) (cs : CacheStorage) : CacheStorage :=
  List.filter (fun p => negb (String.eqb (fst p) name)) cs.

Definition storage_update (name : string) (f : Cache -> Cache) (cs : CacheStorage)
  : CacheStorage :=
  map (fun p => if String.eqb (fst p) name then (fst p, f (snd p)) else p) cs.

(** *** The platform calls, in the monad *)

Definition gets {A} (f : World -> A) : M A := fun w => (Ok (f w), w).
Definition modify (f : World -> World) : M unit := fun w => (Ok tt, f w).

(** The outcome of a promise, observed without rethrowing. *)
Definition attempt {A} (m : M A) : M (Result A) :=
  fun w => match m w with (r, w') => (Ok r, w') end.

(** [Promise.all]: every promise of the array runs to its settlement; the
    result is fulfilled when all are, rejected when one is. *)
Fixpoint promise_all {A} (ms : list (M A)) : M (list A) :=
  match ms with
  | [] => ret []
  | m :: ms' =>
      let* r := attempt m in
      let* rs := attempt (promise_all ms') in
      match r, rs with
      | Ok a, Ok l => ret (a :: l)
      | Throw e, _ => throw e
      | Ok _, Throw e => throw e
      end
  end.

(** A call whose promise is dropped: the work is left to a later turn. *)
Definition background (t : Task) : M unit :=
  modify (set_pending (fun p => p ++ [t])).

Definition caches_open (name : string) : M string :=
  do emit (CachesOpen name) then
  do modify (set_caches (storage_open name)) then
  ret name.

Definition caches_keys : M (list string) :=
  do emit CachesKeys then
  gets (fun w => map fst (caches w)).

Definition caches_delete (name : string) : M bool :=
  do emit (CachesDelete name) then
  let* found := gets (fun w => match storage_get (caches w) name with
                               | Some _ => true
                               | None => false
                               end) in
  do modify (set_caches (storage_delete name)) then
  ret found.

(** [caches.match(request)]: a hit is handed out as a fresh Response. *)
Definition caches_match (query : Request) : M (option RespId) :=
  do emit (CachesMatch (href (url query))) then
  let* found := gets (fun w => storage_match (caches w) query) in
  match found with
  | Some d => let* rid := alloc (mkResponse d false) in ret (Some rid)
  | None => ret None
  end.

(** [cache.put(request, response)] up to the return of its promise: the
    arguments are validated and the body of [response] is taken; the entry
    itself is written when the promise settles ([TPut]).  A rejected promise
    is not an exception of the caller. *)
Definition cache_put (cacheName : string) (request : Request) (rid : RespId) : M unit :=
  do emit (CachePut cacheName (href (url request))) then
  let* r := gets (fun w => heap w !! rid) in
  match r with
  | Some r =>
      if negb (String.eqb (method request) "GET") || bodyUsed r then ret tt
      else
        do mark_used rid then
        background (TPut cacheName request (data r))
  | None => ret tt
  end.

Definition ok_status (st : Z) : bool := (200 <=? st) && (st <=? 299).

(** The fetches of [cache.addAll]: all of them succeed with an ok status
    other than 206, or the whole call fails. *)
Fixpoint fetch_all (net : Network) (requests : list Request)
  : option (list (Request * ResponseData)) :=
  match requests with
  | [] => Some []
  | r :: rs =>
      match net r with
      | Some d =>
          if ok_status (status d) && negb (status d =? 206)
          then option_map (cons (r, d)) (fetch_all net rs)
          else None
      | None => None
      end
  end.

Definition store_all (entries : list (Request * ResponseData)) (c : Cache) : Cache :=
  fold_left (fun c e => cache_store (fst e) (snd e) c) entries c.

Definition skipWaiting : M unit :=
  do emit SkipWaiting then
  modify (set_skipWaitingFlag true).

Definition clients_claim : M unit := emit ClientsClaim.

(** *** URL resolution *)

Definition drop_string (n : nat) (s : string) : string :=
  String.substring n (String.length s - n) s.

Section Worker.

(** The directory of the worker script, [new URL('./', self.location)]:
    its [path] ends with a slash. *)
Variable base : URL.

(** Resolution of the URL strings the script uses: absolute https URLs and
    paths relative to the script. *)
Definition resolve (s : string) : URL :=
  if String.prefix "https://" s then
    let rest := drop_string 8 s in
    match String.index 0 "/" rest with
    | Some i => mkURL "https:" (String.substring 0 i rest) (drop_string i rest)
    | None => mkURL "https:" rest "/"
    end
  else if String.prefix "./" s then
    mkURL (protocol base) (host base) (path base ++ drop_string 2 s)%string
  else mkURL (protocol base) (host base) (path base ++ s)%string.

(** [new Request(url)] as [caches.match(url)] and [cache.addAll] build it. *)
Definition request_of (s : string) : Request := mkRequest "GET" (resolve s) "".

(** [cache.addAll(urls)], awaited. *)
Definition cache_addAll (net : Network) (cacheName : string) (urls : list string)
  : M unit :=
  do emit (CacheAddAll cacheName urls) then
  match fetch_all net (map request_of urls) with
  | Some entries => modify (set_caches (storage_update cacheName (store_all entries)))
  | None => throw (TypeError "Request failed")
  end.

(** ** The script *)

Definition CACHE_NAME : string := "behavana-v1.0.0".
Definition CACHE_URLS : list string :=
  [ "./"; "./index.html"; "./styles.css"; "./manifest.json" ].

Definition EXTERNAL_CACHE_NAME : string := "behavana-external-v1".
Definition EXTERNAL_URLS : list string :=
  [ "https://fonts.googleapis.com/css2?family=Inter:wght@300;400;500;600;700;800&display=swap";
    "https://fonts.gstatic.com/s/inter/v12/UcCO3FwrK3iLTeHuS_fvQtMwCp50KnMw2boKoduKmMEVuLyfAZ9hiA.woff2" ].

Definition DATA_CACHE_NAME : string := "behavana-data-v1".

(** [install]: the promise given to [event.waitUntil]. *)
Definition oninstall (net : Network) : M unit :=
  do console_log "[SW] Installation du Service Worker..." then
  do promise_all
       [ (let* cache := caches_open CACHE_NAME in
          do console_log "[SW] Mise en cache des fichiers principaux" then
          cache_addAll net cache CACHE_URLS);
         (let* cache := caches_open EXTERNAL_CACHE_NAME in
          do console_log "[SW] Mise en cache des ressources externes" then
          try_catch (cache_addAll net cache EXTERNAL_URLS)
            (fun err =>
               console_warn
                 "[SW] Certaines ressources externes n'ont pas pu etre mises en cache")) ]
  then
  do console_log "[SW] Installation terminee - activation immediate" then
  skipWaiting.

(** [activate] *)
Definition onactivate : M unit :=
  do console_log "[SW] Activation du Service Worker..." then
  let* cacheNames := caches_keys in
  do promise_all
       (map (fun cacheName =>
               if negb (String.eqb cacheName CACHE_NAME)
                  && negb (String.eqb cacheName EXTERNAL_CACHE_NAME)
                  && negb (String.eqb cacheName DATA_CACHE_NAME)
               then
                 do console_log ("[SW] Suppression ancien cache: " ++ cacheName)%string then
                 let* deleted := caches_delete cacheName in
                 ret (Some deleted)
               else ret None)
            cacheNames)
  then
  do console_log "[SW] Activation terminee - controle de tous les clients" then
  clients_claim.

(** [updateCache]: the refresh behind a cache hit. *)
Definition updateCache (net : Network) (request : Request) (cacheName : string)
  : M unit :=
  try_catch
    (let* networkResponse := fetch net request in
     let* r := response_get networkResponse in
     if status (data r) =? 200 then
       let* cache := caches_open cacheName in
       let* copy := response_clone networkResponse in
       do cache_put cache request copy then
       console_log ("[SW] Cache mis a jour: " ++ href (url request))%string
     else ret tt)
    (fun error => ret tt).

(** [cacheFirstStrategy]: the value its promise settles with ([None] is
    [undefined]). *)
Definition cacheFirstStrategy (net : Network) (request : Request) (cacheName : string)
  : M (option RespId) :=
  try_catch
    (let* cachedResponse := caches_match request in
     match cachedResponse with
     | Some cached =>
         do console_log ("[SW] Fichier servi depuis le cache: "
                         ++ href (url request))%string then
         do background (TUpdateCache request cacheName) then
         ret (Some cached)
     | None =>
         do console_log ("[SW] Fichier recupere depuis le reseau: "
                         ++ href (url request))%string then
         let* networkResponse := fetch net request in
         let* r := response_get networkResponse in
         do (if status (data r) =? 200 then
               let* cache := caches_open cacheName in
               let* copy := response_clone networkResponse in
               cache_put cache request copy
             else ret tt) then
         ret (Some networkResponse)
     end)
    (fun error =>
       do console_error ("[SW] Erreur lors de la recuperation: "
                         ++ href (url request))%string then
       if String.eqb (destination request) "document" then
         caches_match (request_of "./index.html")
       else
         let* r := new_Response "" 408 "Offline" in
         ret (Some r)).

(** What the fetch handler leaves to the platform. *)
Inductive FetchOutcome :=
| PassThrough                                  (* no [respondWith] *)
| RespondWith (r : Result (option RespId)).

Definition respondWith (p : M (option RespId)) : World -> FetchOutcome * World :=
  fun w => match p w with (r, w') => (RespondWith r, w') end.

(** [fetch] *)
Definition onfetch (net : Network) (request : Request) : World -> FetchOutcome * World :=
  let url := url request in
  if negb (String.eqb (method request) "GET") then
    fun w => (PassThrough, w)
  else if String.eqb (protocol url) "chrome-extension:" then
    fun w => (PassThrough, w)
  else if String.eqb (origin url) "https://fonts.googleapis.com"
          || String.eqb (origin url) "https://fonts.gstatic.com" then
    respondWith (cacheFirstStrategy net request EXTERNAL_CACHE_NAME)
  else
    respondWith (cacheFirstStrategy net request CACHE_NAME).

(** [event.data] of a message: [None] for a falsy payload, else its [type]
    property when that is a string. *)
Definition MessageData := option (option string).

Definition data_type_is (d : MessageData) (t : string) : bool :=
  match d with
  | Some (Some ty) => String.eqb ty t
  | _ => false
  end.

(** [message] *)
Definition onmessage (d : MessageData) : M unit :=
  do (if data_type_is d "SKIP_WAITING" then
        do console_log "[SW] Skip waiting demande" then
        skipWaiting
      else ret tt) then
  if data_type_is d "CLEAR_CACHE" then
    do console_log "[SW] Nettoyage du cache demande" then
    let* cacheNames := caches_keys in
    do promise_all (map (fun cacheName => caches_delete cacheName) cacheNames) then
    ret tt
  else ret tt.

(** ** The event loop *)

(** The settlement of a pending promise. *)
Definition run_task (net : Network) (t : Task) : M unit :=
  match t with
  | TPut cacheName request d =>
      modify (set_caches (storage_update cacheName (cache_store request d)))
  | TUpdateCache request cacheName => updateCache net request cacheName
  end.

Inductive Event :=
| EvInstall
| EvActivate
| EvFetch (request : Request)
| EvMessage (d : MessageData)
| EvSettle (i : nat).

(** One turn: the platform delivers an event the life cycle allows, or the
    [i]-th pending promise settles. *)
Definition deliver (net : Network) (ev : Event) (w : World) : World :=
  match ev with
  | EvInstall =>
      match phase w with
      | Installing =>
          match oninstall net w with
          | (Ok _, w') => set_phase Installed w'
          | (Throw _, w') => set_phase Redundant w'
          end
      | _ => w
      end
  | EvActivate =>
      match phase w with
      | Installed => set_phase Activated (snd (onactivate w))
      | _ => w
      end
  | EvFetch request =>
      match phase w with
      | Activated => snd (onfetch net request w)
      | _ => w
      end
  | EvMessage d =>
      match phase w with
      | Redundant => w
      | _ => snd (onmessage d w)
      end
  | EvSettle i =>
      match pending w !! i with
      | Some t => snd (run_task net t (set_pending (delete i) w))
      | None => w
      end
  end.

(** A run: each turn sees the network of its time. *)
Fixpoint run (turns : list (Network * Event)) (w : World) : World :=
  match turns with
  | [] => w
  | (net, ev) :: rest => run rest (deliver net ev w)
  end.

(** A worker that starts installing over the cache storage [cs]. *)
Definition initial (cs : CacheStorage) : World :=
  mkWorld cs [] [] [] false Installing.

End Worker.

(** ** Notions the properties are stated with *)

(** The entry a named generation holds for a request. *)
Definition generation_match (cs : CacheStorage) (name : string) (query : Request)
  : option ResponseData :=
  match storage_get cs name with
  | Some c => cache_match c query
  | None => None
  end.

(** Some generation called [name] holds [d] for the request. *)
Definition stored_in (cs : CacheStorage) (name : string) (query : Request)
  (d : ResponseData) : Prop :=
  exists c, In (name, c) cs /\ cache_match c query = Some d.

Definition is_font_origin (u : URL) : bool :=
  String.eqb (origin u) "https://fonts.googleapis.com"
  || String.eqb (origin u) "https://fonts.gstatic.com".

(** The generation the fetch handler passes to the strategy. *)
Definition routed_generation (request : Request) : string :=
  if is_font_origin (url request) then EXTERNAL_CACHE_NAME else CACHE_NAME.

Definition recognized (name : string) : bool :=
  String.eqb name CACHE_NAME
  || String.eqb name EXTERNAL_CACHE_NAME
  || String.eqb name DATA_CACHE_NAME.

(** The generation a pending promise writes to. *)
Definition task_target (t : Task) : string :=
  match t with
  | TPut cacheName _ _ => cacheName
  | TUpdateCache _ cacheName => cacheName
  end.

(** What code directed at one generation may do to the world: open that
    generation and leave the promises [new] behind; the flag and the phase
    stay. *)
Definition confined (name : string) (new : list Task) (w w' : World) : Prop :=
  (caches w' = caches w \/ caches w' = storage_open name (caches w))
  /\ pending w' = pending w ++ new
  /\ skipWaitingFlag w' = skipWaitingFlag w
  /\ phase w' = phase w.

(** Nothing but the cache storage and the trace differs. *)
Definition same_rest (w w' : World) : Prop :=
  heap w' = heap w
  /\ pending w' = pending w
  /\ skipWaitingFlag w' = skipWaitingFlag w
  /\ phase w' = phase w.

(** The storage after a bulk write that fetched [entries], or failed. *)
Definition write_all (name : string) (entries : option (list (Request * ResponseData)))
  (cs : CacheStorage) : CacheStorage :=
  match entries with
  | Some es => storage_update name (store_all es) cs
  | None => cs
  end.

(** The two generations the worker opens. *)
Definition own_generation (name : string) : bool :=
  String.eqb name CACHE_NAME || String.eqb name EXTERNAL_CACHE_NAME.

(** Every pending promise writes to one of them. *)
Definition tasks_own (w : World) : bool :=
  forallb (fun t => own_generation (task_target t)) (pending w).

(** A network on which every fetch rejects. *)
Definition unavailable (net : Network) : Prop := forall r, net r = None.

(** The calls [activate] makes for one enumerated name, in the order in
    which it makes them. *)
Definition activate_calls (name : string) : list Effect :=
  if recognized name then []
  else [ Console LLog ("[SW] Suppression ancien cache: " ++ name)%string;
         CachesDelete name ].

(** The response a client gets from an intercepted request. *)
Definition reply (o : FetchOutcome * World) : option ResponseData :=
  match fst o with
  | RespondWith (Ok (Some rid)) => option_map data (heap (snd o) !! rid)
  | _ => None
  end.

(** An entry made by a GET request and holding an ok status. *)
Definition entry_ok (e : Request * ResponseData) : bool :=
  String.eqb (method (fst e)) "GET" && ok_status (status (snd e)).

Definition storage_ok (cs : CacheStorage) : bool :=
  forallb (fun p => forallb entry_ok (snd p)) cs.

Definition task_ok (t : Task) : bool :=
  match t with
  | TPut _ request d => entry_ok (request, d)
  | TUpdateCache _ _ => true
  end.

(** Every entry written, and every write under way, is ok. *)
Definition world_ok (w : World) : bool :=
  storage_ok (caches w) && forallb task_ok (pending w).

(** The synthesized answer of the offline fallback. *)
Definition offline_response : Response :=
  mkResponse (mkResponseData 408 "Offline" "") false.

(** ** Sample inputs *)

Module Sample.

Definition app : URL := mkURL "https:" "app.example" "/mesurage/".

Definition page (d : string) (p : string) : Request :=
  mkRequest "GET" (mkURL "https:" "app.example" p) d.

Definition font : Request :=
  mkRequest "GET" (mkURL "https:" "fonts.gstatic.com" "/s/inter/v12/inter.woff2") "font".

Definition answer (st : Z) (b : string) : ResponseData := mkResponseData st "" b.

(** A network that answers every request with 200. *)
Definition online : Network := fun r => Some (answer 200 (href (url r))).

(** A network on which only the font hosts fail. *)
Definition no_fonts : Network :=
  fun r => if is_font_origin (url r) then None else Some (answer 200 (href (url r))).

Definition world (cs : CacheStorage) : World := mkWorld cs [] [] [] false Activated.

Definition index : Request := page "document" "/mesurage/index.html".
Definition unknown : Request := page "document" "/mesurage/unknown".
Definition script : Request := page "script" "/mesurage/app.js".
Definition post : Request :=
  mkRequest "POST" (mkURL "https:" "app.example" "/mesurage/api/save") "".

Definition styles : Request := page "style" "/mesurage/styles.css".

(** A worker waiting to activate over a storage that still has the
    generation of an older version. *)
Definition upgraded : World :=
  mkWorld [ ("behavana-v0.9.0", [(index, answer 200 "old shell")]);
            (CACHE_NAME, [(index, answer 200 "new shell")]) ]
          [] [] [] true Installed.

(** A storage whose primary generation holds a font, and whose external
    generation holds a page of the application. *)
Definition crossed : CacheStorage :=
  [ (CACHE_NAME, [(font, answer 200 "a font")]);
    (EXTERNAL_CACHE_NAME, [(script, answer 200 "a script")]) ].

(** The worker after install and activate over an empty storage. *)
Definition active : World :=
  run app [(online, EvInstall); (online, EvActivate)] (initial []).

(** A network that answers every request with 404. *)
Definition missing : Network := fun _ => Some (answer 404 "not found").

(** A network that has a newer copy of everything. *)
Definition newer : Network := fun _ => Some (answer 200 "newer").

(** A network on which only the font hosts answer. *)
Definition no_shell : Network :=
  fun r => if is_font_origin (url r) then Some (answer 200 (href (url r))) else None.

(** A worker that starts installing over a storage in which a page keeps
    its own entries under the reserved data name. *)
Definition with_data : World :=
  initial [ (DATA_CACHE_NAME, [(script, answer 200 "user data")]) ].


Definition clear_cache : MessageData := Some (Some "CLEAR_CACHE").

(** The active worker after the clear-cache message. *)
Definition cleared : World := run app [ (online, EvMessage clear_cache) ] active.

(** The active worker that answered the stylesheet from the cache, got the
    clear-cache message while the refresh was in flight, and then saw the
    refresh and its put settle. *)
Definition refreshed_after_clear : World :=
  run app [ (online, EvFetch styles); (online, EvMessage clear_cache);
            (newer, EvSettle 0); (newer, EvSettle 0) ]
      active.

End Sample.

(** ** Caches and the cache storage *)

Lemma request_matches_refl (q : Request) :
  method q = "GET" -> request_matches q q = true.
Proof.
  intros Hm. unfold request_matches.
  rewrite Hm, !String.eqb_refl. reflexivity.
Qed.

Lemma request_matches_GET (q r : Request) :
  request_matches q r = true -> method q = "GET".
Proof.
  unfold request_matches. intros H.
  apply andb_prop in H as [H _]. now apply String.eqb_eq.
Qed.

Lemma cache_match_app (c1 c2 : Cache) (q : Request) :
  cache_match (c1 ++ c2) q =
  match cache_match c1 q with
  | Some d => Some d
  | None => cache_match c2 q
  end.
Proof.
  induction c1 as [|[r d] c1 IH]; simpl; [reflexivity|].
  destruct (request_matches q r); [reflexivity | exact IH].
Qed.

Lemma cache_match_filter_out (c : Cache) (q : Request) :
  cache_match (List.filter (fun e => negb (request_matches q (fst e))) c) q = None.
Proof.
  induction c as [|[r d] c IH]; [reflexivity|].
  simpl.
  destruct (request_matches q r) eqn:E; simpl; [exact IH|].
  rewrite E. exact IH.
Qed.

(** A stored entry is the one a later lookup of the same request finds. *)
Lemma cache_match_store (c : Cache) (q : Request) (d : ResponseData) :
  method q = "GET" -> cache_match (cache_store q d c) q = Some d.
Proof.
  intros Hm. unfold cache_store.
  rewrite cache_match_app, cache_match_filter_out. simpl.
  now rewrite request_matches_refl.
Qed.

Lemma storage_get_app (cs1 cs2 : CacheStorage) (name : string) :
  storage_get (cs1 ++ cs2) name =
  match storage_get cs1 name with
  | Some c => Some c
  | None => storage_get cs2 name
  end.
Proof.
  induction cs1 as [|[n c] cs1 IH]; simpl; [reflexivity|].
  destruct (String.eqb n name); [reflexivity | exact IH].
Qed.

Lemma storage_get_In (cs : CacheStorage) (name : string) (c : Cache) :
  storage_get cs name = Some c -> In (name, c) cs.
Proof.
  induction cs as [|[n c'] cs IH]; simpl; [discriminate|].
  destruct (String.eqb n name) eqn:E.
  - apply String.eqb_eq in E. intros [= ->]. subst. now left.
  - intros H. right. now apply IH.
Qed.

Lemma storage_get_open_same (cs : CacheStorage) (name : string) :
  storage_get (storage_open name cs) name =
  match storage_get cs name with
  | Some c => Some c
  | None => Some []
  end.
Proof.
  unfold storage_open.
  destruct (storage_get cs name) eqn:E; [exact E|].
  rewrite storage_get_app, E. simpl. now rewrite String.eqb_refl.
Qed.

Lemma storage_get_open_other (cs : CacheStorage) (name other : string) :
  other <> name ->
  storage_get (storage_open name cs) other = storage_get cs other.
Proof.
  intros Hne. unfold storage_open.
  destruct (storage_get cs name); [reflexivity|].
  rewrite storage_get_app. simpl.
  destruct (String.eqb name other) eqn:E.
  - apply String.eqb_eq in E. congruence.
  - now destruct (storage_get cs other).
Qed.

Lemma storage_get_update_same (cs : CacheStorage) (name : string) (f : Cache -> Cache) :
  storage_get (storage_update name f cs) name = option_map f (storage_get cs name).
Proof.
  induction cs as [|[n c] cs IH]; simpl; [reflexivity|].
  destruct (String.eqb n name) eqn:E; simpl; rewrite E; [reflexivity | exact IH].
Qed.

Lemma storage_get_update_other (cs : CacheStorage) (name other : string)
  (f : Cache -> Cache) :
  other <> name ->
  storage_get (storage_update name f cs) other = storage_get cs other.
Proof.
  intros Hne.
  induction cs as [|[n c] cs IH]; simpl; [reflexivity|].
  destruct (String.eqb n name) eqn:E; simpl.
  - apply String.eqb_eq in E. subst n.
    destruct (String.eqb name other) eqn:E'; [|exact IH].
    apply String.eqb_eq in E'. congruence.
  - destruct (String.eqb n other); [reflexivity | exact IH].
Qed.

Lemma storage_match_app (cs1 cs2 : CacheStorage) (q : Request) :
  storage_match (cs1 ++ cs2) q =
  match storage_match cs1 q with
  | Some d => Some d
  | None => storage_match cs2 q
  end.
Proof.
  induction cs1 as [|[n c] cs1 IH]; simpl; [reflexivity|].
  destruct (cache_match c q); [reflexivity | exact IH].
Qed.

(** Opening a generation adds at most an empty cache: no lookup changes. *)
Lemma storage_match_open (cs : CacheStorage) (name : string) (q : Request) :
  storage_match (storage_open name cs) q = storage_match cs q.
Proof.
  unfold storage_open. destruct (storage_get cs name); [reflexivity|].
  rewrite storage_match_app. simpl. now destruct (storage_match cs q).
Qed.

(** A hit of [caches.match] comes out of some generation, and a request
    some generation holds is a hit. *)
Lemma storage_match_stored (cs : CacheStorage) (q : Request) (d : ResponseData) :
  storage_match cs q = Some d -> exists name, stored_in cs name q d.
Proof.
  induction cs as [|[n c] cs IH]; simpl; [discriminate|].
  destruct (cache_match c q) eqn:E.
  - intros [= ->]. exists n, c. split; [now left | exact E].
  - intros H. destruct (IH H) as (name & c' & Hin & Hc).
    exists name, c'. split; [now right | exact Hc].
Qed.



(** ** Running handler code *)

Create HintDb worker discriminated.

#[local] Hint Unfold
  try_catch bind ret throw gets modify attempt emit background
  console_log console_warn console_error
  alloc new_Response response_get response_clone mark_used fetch
  caches_open caches_keys caches_delete caches_match cache_put
  skipWaiting clients_claim respondWith : worker.

#[local] Arguments String.append : simpl never.

Ltac run_code := autounfold with worker; cbn.

(** ** The fetch handler and the cache-first strategy *)

(** A request that is not a GET, or that goes to an extension, is left to
    the platform. *)
Lemma onfetch_routed (base : URL) (net : Network) (request : Request) (w : World) :
  method request = "GET" ->
  protocol (url request) <> "chrome-extension:" ->
  onfetch base net request w =
  respondWith (cacheFirstStrategy base net request (routed_generation request)) w.
Proof.
  intros Hm Hp. unfold onfetch, routed_generation, is_font_origin.
  rewrite Hm. simpl.
  destruct (String.eqb (protocol (url request)) "chrome-extension:") eqn:E.
  - apply String.eqb_eq in E. contradiction.
  - now destruct (String.eqb (origin (url request)) "https://fonts.googleapis.com"
                  || String.eqb (origin (url request)) "https://fonts.gstatic.com").
Qed.

(** The hit path, whatever the network. *)
Lemma cacheFirstStrategy_hit (base : URL) (net : Network) (request : Request)
  (cacheName : string) (w : World) (d : ResponseData) :
  storage_match (caches w) request = Some d ->
  exists w',
    cacheFirstStrategy base net request cacheName w = (Ok (Some (length (heap w))), w')
    /\ heap w' = heap w ++ [mkResponse d false]
    /\ caches w' = caches w
    /\ pending w' = pending w ++ [TUpdateCache request cacheName]
    /\ skipWaitingFlag w' = skipWaitingFlag w
    /\ phase w' = phase w.
Proof.
  intros Hhit. unfold cacheFirstStrategy. run_code. rewrite Hhit. cbn.
  eexists. repeat split.
Qed.

(** The miss path when the fetch rejects: the fallback of the handler. *)
Lemma cacheFirstStrategy_offline_miss (base : URL) (net : Network) (request : Request)
  (cacheName : string) (w : World) :
  storage_match (caches w) request = None ->
  net request = None ->
  exists w0,
    caches w0 = caches w /\ heap w0 = heap w /\ pending w0 = pending w
    /\ In (Console LError ("[SW] Erreur lors de la recuperation: "
                           ++ href (url request))%string) (trace w0)
    /\ cacheFirstStrategy base net request cacheName w =
       (if String.eqb (destination request) "document"
        then caches_match (request_of base "./index.html")
        else let* r := new_Response "" 408 "Offline" in ret (Some r)) w0.
Proof.
  intros Hmiss Hnet.
  eexists. split; [|split; [|split; [|split]]]; cycle 4.
  - unfold cacheFirstStrategy. run_code.
    rewrite Hmiss. cbn. rewrite Hnet. cbn. reflexivity.
  - reflexivity.
  - reflexivity.
  - reflexivity.
  - now left.
Qed.

(** A refresh that finds no network changes no cache and leaves no promise. *)
Lemma updateCache_offline (net : Network) (request : Request)
  (cacheName : string) (w : World) :
  net request = None ->
  exists w',
    updateCache net request cacheName w = (Ok tt, w')
    /\ caches w' = caches w /\ heap w' = heap w /\ pending w' = pending w.
Proof.
  intros Hnet. unfold updateCache. run_code. rewrite Hnet. cbn.
  eexists. repeat split.
Qed.

Lemma lookup_snoc_length {A} (l : list A) (x : A) : (l ++ [x]) !! length l = Some x.
Proof.
  rewrite lookup_app_r by lia. now rewrite Nat.sub_diag.
Qed.

(** C5.  A request whose method is not GET is not intercepted: the handler
    returns without [respondWith] and the world is left as it was, so no
    cache is read (the trace gains no [caches.match]), none is written, no
    promise is left behind, and the turn of the event loop changes
    nothing. *)
Theorem non_GET_request_passes_through :
  forall (base : URL) (net : Network) (request : Request) (w : World),
    method request <> "GET" ->
    onfetch base net request w = (PassThrough, w)
    /\ deliver base net (EvFetch request) w = w.
Proof.
  intros base net request w Hm.
  assert (E : String.eqb (method request) "GET" = false).
  { apply String.eqb_neq. exact Hm. }
  assert (H : onfetch base net request w = (PassThrough, w)).
  { unfold onfetch. now rewrite E. }
  split; [exact H|].
  unfold deliver. rewrite H. now destruct (phase w).
Qed.



(** C8 (as amended).  A navigation request that no generation holds, with
    a failing fetch, is answered by what [caches.match('./index.html')]
    finds: when some generation holds the offline document, a fresh
    Response carrying the stored copy, status, reason and body alike; when
    none does, [undefined]. *)
Theorem offline_navigation_gets_offline_document :
  forall (base : URL) (net : Network) (request : Request) (cacheName : string)
         (w : World),
    storage_match (caches w) request = None ->
    net request = None ->
    destination request = "document" ->
    exists r w',
      cacheFirstStrategy base net request cacheName w = (Ok r, w')
      /\ caches w' = caches w
      /\ match storage_match (caches w) (request_of base "./index.html") with
         | Some d => r = Some (length (heap w))
                     /\ heap w' !! length (heap w) = Some (mkResponse d false)
         | None => r = None
         end.
Proof.
  intros base net request cacheName w Hmiss Hnet Hdoc.
  destruct (cacheFirstStrategy_offline_miss base net request cacheName w Hmiss Hnet)
    as (w0 & Hc & Hh & _ & _ & Hrun).
  rewrite Hrun, Hdoc. simpl. run_code. rewrite Hc.
  destruct (storage_match (caches w) (request_of base "./index.html")) as [d|]; cbn.
  - rewrite Hh. eexists _, _. split; [reflexivity|]. cbn. split; [exact Hc|].
    split; [reflexivity|]. rewrite Hh. apply lookup_snoc_length.
  - eexists _, _. split; [reflexivity|]. cbn. split; [exact Hc | reflexivity].
Qed.

(** C9.  A request of any other destination that no generation holds, with
    a failing fetch, is answered by a synthesized Response: empty body,
    status 408, reason "Offline". *)
Theorem offline_miss_gets_408 :
  forall (base : URL) (net : Network) (request : Request) (cacheName : string)
         (w : World),
    storage_match (caches w) request = None ->
    net request = None ->
    destination request <> "document" ->
    exists w',
      cacheFirstStrategy base net request cacheName w
      = (Ok (Some (length (heap w))), w')
      /\ heap w' !! length (heap w)
         = Some (mkResponse (mkResponseData 408 "Offline" "") false)
      /\ caches w' = caches w
      /\ pending w' = pending w.
Proof.
  intros base net request cacheName w Hmiss Hnet Hdoc.
  destruct (cacheFirstStrategy_offline_miss base net request cacheName w Hmiss Hnet)
    as (w0 & Hc & Hh & Hp & _ & Hrun).
  apply String.eqb_neq in Hdoc.
  rewrite Hrun, Hdoc. run_code. rewrite Hh.
  eexists. split; [reflexivity|]. cbn. rewrite Hh.
  split; [apply lookup_snoc_length|]. split; [exact Hc | exact Hp].
Qed.

(** ** The writes of the strategy *)

Lemma insert_snoc_length {A} (l : list A) (x y : A) :
  <[length l := y]> (l ++ [x]) = l ++ [y].
Proof.
  induction l as [|a l IH]; simpl; [reflexivity|]. now rewrite IH.
Qed.

Ltac heap_step :=
  first [ rewrite lookup_snoc_length | rewrite insert_snoc_length ]; cbn.

(** The miss path when the fetch answers 200: the Response of the fetch is
    returned untouched, its clone has been given to [cache.put], whose
    write is pending. *)
Lemma cacheFirstStrategy_miss_200 (base : URL) (net : Network) (request : Request)
  (cacheName : string) (w : World) (d : ResponseData) :
  method request = "GET" ->
  storage_match (caches w) request = None ->
  net request = Some d ->
  status d = 200 ->
  exists w',
    cacheFirstStrategy base net request cacheName w = (Ok (Some (length (heap w))), w')
    /\ heap w' = heap w ++ [mkResponse d false; mkResponse d true]
    /\ caches w' = storage_open cacheName (caches w)
    /\ pending w' = pending w ++ [TPut cacheName request d]
    /\ skipWaitingFlag w' = skipWaitingFlag w
    /\ phase w' = phase w.
Proof.
  intros Hm Hmiss Hnet Hst.
  unfold cacheFirstStrategy. run_code.
  rewrite Hmiss. cbn. rewrite Hnet. cbn.
  heap_step. rewrite Hst. cbn. do 2 heap_step. rewrite Hm. cbn.
  eexists. split; [reflexivity|]. cbn. do 2 heap_step.
  rewrite <- app_assoc. repeat split.
Qed.

Lemma updateCache_effect (net : Network) (request : Request) (cacheName : string)
  (w : World) :
  exists w' new,
    updateCache net request cacheName w = (Ok tt, w')
    /\ confined cacheName new w w'
    /\ (new = []
        \/ exists d, net request = Some d /\ status d = 200
                     /\ method request = "GET"
                     /\ new = [TPut cacheName request d]).
Proof.
  unfold updateCache, confined. run_code.
  destruct (net request) as [d|] eqn:Hnet; cbn.
  2:{ eexists _, []. rewrite app_nil_r. repeat split; auto. }
  heap_step.
  destruct (status d =? 200) eqn:Hst; cbn.
  2:{ eexists _, []. rewrite app_nil_r. split; [reflexivity|]. cbn. repeat split; auto. }
  do 2 heap_step.
  destruct (String.eqb (method request) "GET") eqn:Hm; cbn.
  - eexists _, _. split; [reflexivity|]. cbn. split; [repeat split; auto|].
    right. exists d. apply Z.eqb_eq in Hst. apply String.eqb_eq in Hm. auto.
  - eexists _, []. rewrite app_nil_r. split; [reflexivity|]. cbn. repeat split; auto.
Qed.

Lemma cacheFirstStrategy_effect (base : URL) (net : Network) (request : Request)
  (cacheName : string) (w : World) :
  exists r w' new,
    cacheFirstStrategy base net request cacheName w = (Ok r, w')
    /\ confined cacheName new w w'
    /\ (new = [] \/ new = [TUpdateCache request cacheName]
        \/ exists d, net request = Some d /\ status d = 200
                     /\ method request = "GET"
                     /\ new = [TPut cacheName request d]).
Proof.
  unfold cacheFirstStrategy, confined. run_code.
  destruct (storage_match (caches w) request) as [hit|] eqn:Hhit; cbn.
  { eexists _, _, _. split; [reflexivity|]. cbn. repeat split; auto. }
  destruct (net request) as [d|] eqn:Hnet; cbn.
  2:{ destruct (String.eqb (destination request) "document"); cbn.
      - destruct (storage_match (caches w) (request_of base "./index.html")); cbn;
          eexists _, _, []; rewrite app_nil_r; (split; [reflexivity|]); cbn;
          repeat split; auto.
      - eexists _, _, []. rewrite app_nil_r. split; [reflexivity|]. cbn.
        repeat split; auto. }
  heap_step.
  destruct (status d =? 200) eqn:Hst; cbn.
  2:{ eexists _, _, []. rewrite app_nil_r. split; [reflexivity|]. cbn. repeat split; auto. }
  do 2 heap_step.
  destruct (String.eqb (method request) "GET") eqn:Hm; cbn.
  - eexists _, _, _. split; [reflexivity|]. cbn. split; [repeat split; auto|].
    right. right. exists d. apply Z.eqb_eq in Hst. apply String.eqb_eq in Hm. auto.
  - eexists _, _, []. rewrite app_nil_r. split; [reflexivity|]. cbn. repeat split; auto.
Qed.

Lemma confined_other_generations (name other : string) (new : list Task) (w w' : World) :
  confined name new w w' ->
  other <> name ->
  storage_get (caches w') other = storage_get (caches w) other.
Proof.
  intros ([-> | ->] & _) Hne; [reflexivity|].
  now apply storage_get_open_other.
Qed.

(** A pending promise writes to its own generation only, and what it leaves
    behind does too. *)
Lemma run_task_confined (net : Network) (t : Task) (v : World) :
  exists v' new,
    run_task net t v = (Ok tt, v')
    /\ (forall name, name <> task_target t ->
                     storage_get (caches v') name = storage_get (caches v) name)
    /\ pending v' = pending v ++ new
    /\ Forall (fun t' => task_target t' = task_target t) new
    /\ phase v' = phase v.
Proof.
  destruct t as [cacheName request d | request cacheName]; simpl.
  - eexists _, []. split; [reflexivity|]. simpl. rewrite app_nil_r.
    split; [|now repeat split].
    intros name Hne. now apply storage_get_update_other.
  - destruct (updateCache_effect net request cacheName v)
      as (v' & new & Hrun & Hconf & Hnew).
    exists v', new. split; [exact Hrun|].
    split; [intros name Hne; eapply confined_other_generations; eauto|].
    destruct Hconf as (_ & Hp & _ & Hph).
    split; [exact Hp|]. split; [|exact Hph].
    destruct Hnew as [-> | (d & _ & _ & _ & ->)]; repeat constructor.
Qed.

Lemma storage_match_None_get (cs : CacheStorage) (name : string) (c : Cache)
  (q : Request) :
  storage_match cs q = None -> storage_get cs name = Some c -> cache_match c q = None.
Proof.
  induction cs as [|[n c'] cs IH]; simpl; [discriminate|].
  destruct (cache_match c' q) eqn:E; [discriminate|].
  destruct (String.eqb n name); [now intros _ [= <-] | exact IH].
Qed.

(** C3 (as amended).  On the miss path, when the fetch answers 200, the
    strategy returns the very Response of the fetch, unconsumed, after it
    has handed a clone (the next object of the heap, whose body the put has
    taken) to [cache.put] for the chosen generation; the promise of that
    put is not awaited, so at the return the chosen generation holds no
    entry for the request yet, and it holds the copy when the pending write
    then settles, the returned Response still unconsumed. *)
Theorem miss_path_write_is_pending_at_return :
  forall (base : URL) (net net' : Network) (request : Request) (cacheName : string)
         (w : World) (d : ResponseData),
    method request = "GET" ->
    storage_match (caches w) request = None ->
    net request = Some d ->
    status d = 200 ->
    exists w',
      cacheFirstStrategy base net request cacheName w
      = (Ok (Some (length (heap w))), w')
      /\ heap w' !! length (heap w) = Some (mkResponse d false)
      /\ heap w' !! S (length (heap w)) = Some (mkResponse d true)
      /\ generation_match (caches w') cacheName request = None
      /\ pending w' = pending w ++ [TPut cacheName request d]
      /\ generation_match
           (caches (deliver base net' (EvSettle (length (pending w))) w'))
           cacheName request = Some d
      /\ heap (deliver base net' (EvSettle (length (pending w))) w')
         !! length (heap w) = Some (mkResponse d false).
Proof.
  intros base net net' request cacheName w d Hm Hmiss Hnet Hst.
  destruct (cacheFirstStrategy_miss_200 base net request cacheName w d Hm Hmiss Hnet Hst)
    as (w' & Hrun & Hh & Hc & Hp & _).
  assert (Hfresh : (heap w ++ [mkResponse d false; mkResponse d true])
                   !! length (heap w) = Some (mkResponse d false)).
  { change [mkResponse d false; mkResponse d true]
      with ([mkResponse d false] ++ [mkResponse d true]).
    rewrite app_assoc, lookup_app_l by (rewrite length_app; simpl; lia).
    apply lookup_snoc_length. }
  exists w'. split; [exact Hrun|].
  split; [now rewrite Hh|].
  split.
  { rewrite Hh.
    change [mkResponse d false; mkResponse d true]
      with ([mkResponse d false] ++ [mkResponse d true]).
    rewrite app_assoc.
    replace (S (length (heap w))) with (length (heap w ++ [mkResponse d false]))
      by (rewrite length_app; simpl; lia).
    apply lookup_snoc_length. }
  split.
  { unfold generation_match. rewrite Hc, storage_get_open_same.
    destruct (storage_get (caches w) cacheName) eqn:E; [|reflexivity].
    eapply storage_match_None_get; eauto. }
  split; [exact Hp|].
  unfold deliver. rewrite Hp, lookup_snoc_length. simpl.
  split; [|now rewrite Hh].
  unfold generation_match.
  rewrite storage_get_update_same, Hc, storage_get_open_same.
  destruct (storage_get (caches w) cacheName); cbv [option_map];
    now apply cache_match_store.
Qed.

(** C2 (as amended).  An intercepted GET request is handed to the strategy
    with the external generation when its origin is one of the two font
    origins and with the primary generation otherwise, and that generation
    is the only one written: the handler leaves every other generation as
    it was, the promises it leaves write to the routed generation, and so
    does whatever those promises leave when they settle.  The lookup is not
    routed: a response held by any generation is the reply; it comes from
    the routed generation when no other generation holds the request. *)
Theorem writes_are_routed_lookups_are_not :
  forall (base : URL) (net : Network) (request : Request) (w : World),
    method request = "GET" ->
    protocol (url request) <> "chrome-extension:" ->
    exists r w' new,
      onfetch base net request w = (RespondWith (Ok r), w')
      /\ routed_generation request
         = (if is_font_origin (url request) then EXTERNAL_CACHE_NAME else CACHE_NAME)
      /\ (forall d, storage_match (caches w) request = Some d ->
                    reply (onfetch base net request w) = Some d)
      /\ (forall name, name <> routed_generation request ->
                       storage_get (caches w') name = storage_get (caches w) name)
      /\ pending w' = pending w ++ new
      /\ Forall (fun t => task_target t = routed_generation request) new
      /\ (forall net' t v,
             task_target t = routed_generation request ->
             exists v' new',
               run_task net' t v = (Ok tt, v')
               /\ (forall name, name <> routed_generation request ->
                                storage_get (caches v') name = storage_get (caches v) name)
               /\ pending v' = pending v ++ new'
               /\ Forall (fun t' => task_target t' = routed_generation request) new')
      /\ (forall d,
             storage_match (caches w) request = Some d ->
             (forall name d', stored_in (caches w) name request d' ->
                              name = routed_generation request) ->
             stored_in (caches w) (routed_generation request) request d).
Proof.
  intros base net request w Hm Hp.
  rewrite (onfetch_routed base net request w Hm Hp).
  set (g := routed_generation request).
  destruct (cacheFirstStrategy_effect base net request g w)
    as (r & w' & new & Hrun & Hconf & Hnew).
  exists r, w', new. unfold respondWith. rewrite Hrun.
  split; [reflexivity|]. split; [reflexivity|].
  split.
  { intros d Hhit.
    destruct (cacheFirstStrategy_hit base net request g w d Hhit)
      as (w1 & Hrun1 & Hh1 & _).
    rewrite Hrun in Hrun1. injection Hrun1 as -> ->.
    unfold reply. simpl. now rewrite Hh1, lookup_snoc_length. }
  split; [intros name Hne; eapply confined_other_generations; eauto|].
  destruct Hconf as (_ & Hpend & _).
  split; [exact Hpend|].
  split.
  { destruct Hnew as [-> | [-> | (d & _ & _ & _ & ->)]]; repeat constructor. }
  split.
  { intros net' t v Ht.
    destruct (run_task_confined net' t v) as (v' & new' & Hr & Hg & Hq & Hall & _).
    rewrite Ht in Hg, Hall. eauto 10. }
  intros d Hhit Honly.
  destruct (storage_match_stored _ _ _ Hhit) as [name Hst].
  now rewrite <- (Honly name d Hst).
Qed.

(** ** Deleting generations: activate and the clear-cache message *)

Lemma filter_filter_and {A} (f g : A -> bool) (l : list A) :
  List.filter f (List.filter g l) = List.filter (fun x => g x && f x) l.
Proof.
  induction l as [|x l IH]; simpl; [reflexivity|].
  destruct (g x); simpl; [|exact IH].
  destruct (f x); now rewrite IH.
Qed.

Lemma filter_all {A} (f : A -> bool) (l : list A) :
  (forall x, In x l -> f x = true) -> List.filter f l = l.
Proof.
  induction l as [|x l IH]; simpl; intros H; [reflexivity|].
  rewrite (H x) by now left. f_equal. apply IH. intros y Hy. apply H. now right.
Qed.

Lemma filter_none {A} (f : A -> bool) (l : list A) :
  (forall x, In x l -> f x = false) -> List.filter f l = [].
Proof.
  induction l as [|x l IH]; simpl; intros H; [reflexivity|].
  rewrite (H x) by now left. apply IH. intros y Hy. apply H. now right.
Qed.

Lemma existsb_eqb_fst {B} (l : list (string * B)) (p : string * B) :
  In p l -> existsb (String.eqb (fst p)) (map fst l) = true.
Proof.
  intros Hin. apply existsb_exists. exists (fst p).
  split; [now apply in_map | apply String.eqb_refl].
Qed.

(** [Promise.all] over one deletion per enumerated name: the generations
    that go are those among [names] that [del] selects. *)
Lemma promise_all_deletes {A} (h : string -> M A) (del : string -> bool) :
  (forall name w, exists a w',
      h name w = (Ok a, w')
      /\ caches w' = (if del name then storage_delete name (caches w) else caches w)
      /\ same_rest w w') ->
  forall names w, exists rs w',
      promise_all (map h names) w = (Ok rs, w')
      /\ caches w'
         = List.filter
             (fun p => negb (del (fst p) && existsb (String.eqb (fst p)) names))
             (caches w)
      /\ same_rest w w'.
Proof.
  intros Hh names. induction names as [|n names IH]; intros w.
  - exists [], w. split; [reflexivity|]. split; [|now repeat split].
    simpl. symmetry. apply filter_all. intros p _. now rewrite andb_false_r.
  - destruct (Hh n w) as (a & w1 & Hrun1 & Hc1 & Hr1).
    destruct (IH w1) as (rs & w' & Hrun & Hc & Hr).
    exists (a :: rs), w'. split.
    { simpl. unfold bind, attempt. rewrite Hrun1, Hrun. reflexivity. }
    split.
    2:{ destruct Hr1 as (? & ? & ? & ?), Hr as (? & ? & ? & ?).
        repeat split; congruence. }
    rewrite Hc, Hc1. simpl.
    destruct (del n) eqn:Hdel.
    + unfold storage_delete. rewrite filter_filter_and.
      apply filter_ext. intros p.
      destruct (String.eqb (fst p) n) eqn:E; simpl; [|reflexivity].
      apply String.eqb_eq in E. rewrite E, Hdel. reflexivity.
    + apply filter_ext. intros p.
      destruct (String.eqb (fst p) n) eqn:E; simpl; [|reflexivity].
      apply String.eqb_eq in E. rewrite E, Hdel. reflexivity.
Qed.

Lemma caches_delete_effect (name : string) (w : World) :
  exists b w',
    caches_delete name w = (Ok b, w')
    /\ caches w' = storage_delete name (caches w)
    /\ same_rest w w'.
Proof.
  run_code. eexists _, _. split; [reflexivity|]. now repeat split.
Qed.

Lemma recognized_guard (name : string) :
  negb (String.eqb name CACHE_NAME)
  && negb (String.eqb name EXTERNAL_CACHE_NAME)
  && negb (String.eqb name DATA_CACHE_NAME)
  = negb (recognized name).
Proof.
  unfold recognized.
  now destruct (String.eqb name CACHE_NAME), (String.eqb name EXTERNAL_CACHE_NAME),
    (String.eqb name DATA_CACHE_NAME).
Qed.

Lemma recognized_names (name : string) :
  recognized name = true <->
  name = CACHE_NAME \/ name = EXTERNAL_CACHE_NAME \/ name = DATA_CACHE_NAME.
Proof.
  unfold recognized. rewrite !orb_true_iff, !String.eqb_eq. tauto.
Qed.

(** What [activate] leaves of the cache storage. *)
Lemma onactivate_effect (w : World) :
  exists w',
    onactivate w = (Ok tt, w')
    /\ caches w' = List.filter (fun p => recognized (fst p)) (caches w)
    /\ same_rest w w'
    /\ In ClientsClaim (trace w').
Proof.
  unfold onactivate.
  set (h := fun cacheName : string => _).
  destruct (promise_all_deletes h (fun name => negb (recognized name)))
    with (names := map fst (caches w))
         (w := set_trace (cons CachesKeys)
                 (set_trace (cons (Console LLog "[SW] Activation du Service Worker...")) w))
    as (rs & w1 & Hrun & Hc & Hr).
  { intros name v. unfold h. rewrite recognized_guard.
    destruct (negb (recognized name)).
    - destruct (caches_delete_effect name
                  (set_trace (cons (Console LLog
                     ("[SW] Suppression ancien cache: " ++ name)%string)) v))
        as (b & v' & Hdel & Hcv & Hrv).
      exists (Some b), v'. split.
      + unfold bind, console_log, emit, ret. now rewrite Hdel.
      + split; [exact Hcv | exact Hrv].
    - exists None, v. split; [reflexivity|]. split; [reflexivity | now repeat split]. }
  unfold bind at 1. unfold console_log at 1. unfold emit at 1.
  unfold bind at 1. unfold caches_keys, bind at 1, emit at 1, gets.
  unfold bind at 1. simpl in Hrun |- *. rewrite Hrun.
  run_code. eexists. split; [reflexivity|]. simpl.
  split.
  { rewrite Hc. simpl. apply filter_ext_in. intros p Hin.
    rewrite (existsb_eqb_fst _ _ Hin), andb_true_r. apply negb_involutive. }
  split; [|now left].
  destruct Hr as (? & ? & ? & ?). now repeat split.
Qed.

(** C4.  When [activate] has settled, every name [caches.keys()] still
    enumerates is one of the three recognized names, and every generation
    under a recognized name is still there with its entries; nothing is
    created. *)
Theorem activate_keeps_exactly_the_recognized :
  forall (w : World),
    exists w',
      onactivate w = (Ok tt, w')
      /\ fst (caches_keys w') = Ok (map fst (caches w'))
      /\ (forall name, In name (map fst (caches w')) ->
                       name = CACHE_NAME \/ name = EXTERNAL_CACHE_NAME
                       \/ name = DATA_CACHE_NAME)
      /\ (forall name c,
             name = CACHE_NAME \/ name = EXTERNAL_CACHE_NAME \/ name = DATA_CACHE_NAME ->
             In (name, c) (caches w) -> In (name, c) (caches w'))
      /\ (forall name c, In (name, c) (caches w') -> In (name, c) (caches w)).
Proof.
  intros w. destruct (onactivate_effect w) as (w' & Hrun & Hc & _).
  exists w'. split; [exact Hrun|]. split; [reflexivity|].
  rewrite Hc. split; [|split].
  - intros name Hin. apply in_map_iff in Hin as ([n c] & <- & Hin).
    apply filter_In in Hin as [_ Hrec]. now apply recognized_names.
  - intros name c Hrec Hin. apply filter_In. split; [exact Hin|].
    now apply recognized_names.
  - intros name c Hin. now apply filter_In in Hin as [Hin _].
Qed.

(** What the clear-cache message leaves: nothing. *)
Lemma onmessage_clear_effect (w : World) :
  exists w',
    onmessage (Some (Some "CLEAR_CACHE")) w = (Ok tt, w')
    /\ caches w' = []
    /\ same_rest w w'.
Proof.
  unfold onmessage. simpl.
  destruct (promise_all_deletes caches_delete (fun _ => true))
    with (names := map fst (caches w))
         (w := set_trace (cons CachesKeys)
                 (set_trace (cons (Console LLog "[SW] Nettoyage du cache demande")) w))
    as (rs & w1 & Hrun & Hc & Hr).
  { intros name v. apply caches_delete_effect. }
  unfold bind, ret, console_log, caches_keys, emit, gets.
  cbn -[caches_delete promise_all].
  change (fun cacheName : string => caches_delete cacheName) with caches_delete.
  rewrite Hrun.
  eexists. split; [reflexivity|]. split.
  - rewrite Hc. simpl. apply filter_none. intros p Hin.
    now rewrite (existsb_eqb_fst _ _ Hin).
  - destruct Hr as (? & ? & ? & ?). now repeat split.
Qed.

(** ** Install and the life cycle *)

#[local] Arguments fetch_all : simpl never.

Lemma oninstall_effect (base : URL) (net : Network) (w : World) :
  let shell := fetch_all net (map (request_of base) CACHE_URLS) in
  let fonts := fetch_all net (map (request_of base) EXTERNAL_URLS) in
  exists r w',
    oninstall base net w = (r, w')
    /\ caches w'
       = write_all EXTERNAL_CACHE_NAME fonts
           (storage_open EXTERNAL_CACHE_NAME
              (write_all CACHE_NAME shell (storage_open CACHE_NAME (caches w))))
    /\ heap w' = heap w /\ pending w' = pending w /\ phase w' = phase w
    /\ match shell with
       | Some _ => r = Ok tt /\ skipWaitingFlag w' = true /\ In SkipWaiting (trace w')
       | None => (exists e, r = Throw e) /\ skipWaitingFlag w' = skipWaitingFlag w
       end
    /\ (fonts = None ->
        In (Console LWarn
              "[SW] Certaines ressources externes n'ont pas pu etre mises en cache")
           (trace w')).
Proof.
  intros shell fonts. subst shell fonts.
  unfold oninstall, promise_all, cache_addAll.
  destruct (fetch_all net (map (request_of base) CACHE_URLS)) as [shell|];
    destruct (fetch_all net (map (request_of base) EXTERNAL_URLS)) as [fonts|];
    run_code; eexists _, _; (split; [reflexivity|]); cbn.
  all: repeat split; eauto; try discriminate; simpl; eauto 10.
Qed.

(** A redundant worker stays redundant: no event reaches its handlers, and
    a promise that settles does not touch the phase. *)
Lemma redundant_deliver (base : URL) (net : Network) (ev : Event) (w : World) :
  phase w = Redundant -> phase (deliver base net ev w) = Redundant.
Proof.
  intros Hph. destruct ev as [| | request | d | i]; unfold deliver.
  1-4: now rewrite Hph.
  destruct (pending w !! i) as [t|]; [|exact Hph].
  destruct (run_task_confined net t (set_pending (delete i) w))
    as (v' & new & Hrun & _ & _ & _ & Hv).
  rewrite Hrun. simpl. now rewrite Hv.
Qed.

Lemma redundant_run (base : URL) (turns : list (Network * Event)) :
  forall w, phase w = Redundant -> phase (run base turns w) = Redundant.
Proof.
  induction turns as [|[net ev] turns IH]; intros w Hph; simpl; [exact Hph|].
  apply IH. now apply redundant_deliver.
Qed.

(** C7.  Install fails exactly when the bulk write of the shell list fails:
    the worker then becomes redundant and no later turn activates it, and
    [skipWaiting] has not been called.  When the shell list is written,
    install succeeds whether or not the external resources could be
    written (their failure is caught and logged with a warning), the
    worker has called [skipWaiting], and the activate event brings it to
    the activated phase. *)
Theorem install_fails_only_when_the_shell_write_fails :
  forall (base : URL) (net : Network) (w : World),
    phase w = Installing ->
    match fetch_all net (map (request_of base) CACHE_URLS) with
    | None =>
        phase (deliver base net EvInstall w) = Redundant
        /\ skipWaitingFlag (deliver base net EvInstall w) = skipWaitingFlag w
        /\ (forall turns,
               phase (run base turns (deliver base net EvInstall w)) = Redundant)
    | Some _ =>
        phase (deliver base net EvInstall w) = Installed
        /\ skipWaitingFlag (deliver base net EvInstall w) = true
        /\ In SkipWaiting (trace (deliver base net EvInstall w))
        /\ (fetch_all net (map (request_of base) EXTERNAL_URLS) = None ->
            In (Console LWarn
                  "[SW] Certaines ressources externes n'ont pas pu etre mises en cache")
               (trace (deliver base net EvInstall w)))
        /\ (forall net',
               phase (deliver base net' EvActivate (deliver base net EvInstall w))
               = Activated)
    end.
Proof.
  intros base net w Hph.
  destruct (oninstall_effect base net w)
    as (r & w' & Hrun & _ & _ & _ & _ & Hshell & Hfonts).
  assert (Hd : deliver base net EvInstall w
               = match r with
                 | Ok _ => set_phase Installed w'
                 | Throw _ => set_phase Redundant w'
                 end).
  { unfold deliver. now rewrite Hph, Hrun. }
  rewrite Hd. clear Hd.
  destruct (fetch_all net (map (request_of base) CACHE_URLS)) as [shell|].
  - destruct Hshell as (-> & Hflag & Htrace). simpl.
    split; [reflexivity|]. split; [exact Hflag|]. split; [exact Htrace|].
    split; [exact Hfonts|]. intros net'. reflexivity.
  - destruct Hshell as ((e & ->) & Hflag). simpl.
    split; [reflexivity|]. split; [exact Hflag|].
    intros turns. now apply redundant_run.
Qed.

(** ** The invariant of the cache storage *)

Lemma forallb_filter {A} (f g : A -> bool) (l : list A) :
  forallb f l = true -> forallb f (List.filter g l) = true.
Proof.
  rewrite !forallb_forall. intros H x Hx.
  apply filter_In in Hx as [Hx _]. now apply H.
Qed.

Lemma cache_store_ok (request : Request) (d : ResponseData) (c : Cache) :
  entry_ok (request, d) = true ->
  forallb entry_ok c = true ->
  forallb entry_ok (cache_store request d c) = true.
Proof.
  intros He Hc. unfold cache_store.
  rewrite forallb_app, forallb_filter by exact Hc.
  simpl. now rewrite He.
Qed.

Lemma store_all_ok (entries : list (Request * ResponseData)) :
  forallb entry_ok entries = true ->
  forall c, forallb entry_ok c = true -> forallb entry_ok (store_all entries c) = true.
Proof.
  unfold store_all.
  induction entries as [|[r d] entries IH]; simpl; intros He c Hc; [exact Hc|].
  apply andb_prop in He as [He Hes].
  apply IH; [exact Hes|]. now apply cache_store_ok.
Qed.

(** What [cache.addAll] fetched is written by GET requests with an ok
    status. *)
Lemma fetch_all_ok (net : Network) (requests : list Request) :
  forallb (fun r => String.eqb (method r) "GET") requests = true ->
  forall entries,
    fetch_all net requests = Some entries -> forallb entry_ok entries = true.
Proof.
  unfold fetch_all.
  induction requests as [|r rs IH]; simpl; intros Hm entries.
  - now intros [= <-].
  - apply andb_prop in Hm as [Hr Hrs]. fold (fetch_all net rs).
    destruct (net r) as [d|]; [|discriminate].
    destruct (ok_status (status d) && negb (status d =? 206)) eqn:Hok; [|discriminate].
    destruct (fetch_all net rs) as [es|] eqn:Hes; [|discriminate].
    intros [= <-]. simpl. rewrite (IH Hrs es) by (fold (fetch_all net rs); exact Hes).
    apply andb_prop in Hok as [Hok _].
    unfold entry_ok. simpl. now rewrite Hr, Hok.
Qed.

Lemma requests_of_urls_GET (base : URL) (urls : list string) :
  forallb (fun r => String.eqb (method r) "GET") (map (request_of base) urls) = true.
Proof.
  apply forallb_forall. intros r Hr.
  apply in_map_iff in Hr as (u & <- & _). reflexivity.
Qed.

Lemma storage_ok_app (cs1 cs2 : CacheStorage) :
  storage_ok (cs1 ++ cs2) = storage_ok cs1 && storage_ok cs2.
Proof. apply forallb_app. Qed.

Lemma storage_ok_open (name : string) (cs : CacheStorage) :
  storage_ok cs = true -> storage_ok (storage_open name cs) = true.
Proof.
  intros H. unfold storage_open. destruct (storage_get cs name); [exact H|].
  rewrite storage_ok_app, H. reflexivity.
Qed.

Lemma storage_ok_update (name : string) (f : Cache -> Cache) (cs : CacheStorage) :
  (forall c, forallb entry_ok c = true -> forallb entry_ok (f c) = true) ->
  storage_ok cs = true -> storage_ok (storage_update name f cs) = true.
Proof.
  intros Hf. unfold storage_ok, storage_update.
  induction cs as [|[n c] cs IH]; simpl; [reflexivity|].
  intros H. apply andb_prop in H as [Hc Hcs].
  rewrite (IH Hcs), andb_true_r.
  destruct (String.eqb n name); simpl; [now apply Hf | exact Hc].
Qed.

Lemma storage_ok_write_all (name : string) (net : Network) (base : URL)
  (urls : list string) (cs : CacheStorage) :
  storage_ok cs = true ->
  storage_ok (write_all name (fetch_all net (map (request_of base) urls)) cs) = true.
Proof.
  intros H. unfold write_all.
  destruct (fetch_all net (map (request_of base) urls)) as [es|] eqn:E; [|exact H].
  apply storage_ok_update; [|exact H].
  apply store_all_ok. eapply fetch_all_ok; [apply requests_of_urls_GET | exact E].
Qed.

Lemma world_ok_split (w : World) :
  world_ok w = true <->
  storage_ok (caches w) = true /\ forallb task_ok (pending w) = true.
Proof. unfold world_ok. apply andb_true_iff. Qed.

(** Code confined to a generation keeps the invariant when the promises it
    leaves do. *)
Lemma confined_ok (name : string) (new : list Task) (w w' : World) :
  confined name new w w' ->
  forallb task_ok new = true ->
  world_ok w = true -> world_ok w' = true.
Proof.
  intros (Hc & Hp & _) Hnew Hw.
  apply world_ok_split in Hw as [Hcs Hts]. apply world_ok_split.
  rewrite Hp, forallb_app, Hts, Hnew.
  split; [|reflexivity].
  destruct Hc as [-> | ->]; [exact Hcs | now apply storage_ok_open].
Qed.

Lemma put_task_ok (cacheName : string) (request : Request) (d : ResponseData) :
  method request = "GET" -> status d = 200 ->
  task_ok (TPut cacheName request d) = true.
Proof.
  intros Hm Hst. unfold task_ok, entry_ok. simpl. now rewrite Hm, Hst.
Qed.

Lemma same_rest_ok (w w' : World) :
  same_rest w w' ->
  storage_ok (caches w') = true ->
  world_ok w = true -> world_ok w' = true.
Proof.
  intros (_ & Hp & _) Hcs Hw.
  apply world_ok_split in Hw as [_ Hts]. apply world_ok_split.
  now rewrite Hp.
Qed.

Lemma onfetch_ok (base : URL) (net : Network) (request : Request) (w : World) :
  world_ok w = true -> world_ok (snd (onfetch base net request w)) = true.
Proof.
  intros Hw. unfold onfetch.
  destruct (negb (String.eqb (method request) "GET")); [exact Hw|].
  destruct (String.eqb (protocol (url request)) "chrome-extension:"); [exact Hw|].
  assert (Hany : forall g,
             world_ok (snd (respondWith (cacheFirstStrategy base net request g) w))
             = true).
  { intros g.
    destruct (cacheFirstStrategy_effect base net request g w)
      as (r & w' & new & Hrun & Hconf & Hnew).
    unfold respondWith. rewrite Hrun. simpl.
    apply (confined_ok g new w w' Hconf); [|exact Hw].
    destruct Hnew as [-> | [-> | (d & _ & Hst & Hm & ->)]]; try reflexivity.
    cbn [forallb]. now rewrite put_task_ok. }
  destruct (String.eqb (origin (url request)) "https://fonts.googleapis.com"
            || String.eqb (origin (url request)) "https://fonts.gstatic.com");
    apply Hany.
Qed.

Lemma onmessage_ok (d : MessageData) (w : World) :
  world_ok w = true -> world_ok (snd (onmessage d w)) = true.
Proof.
  intros Hw. unfold onmessage.
  assert (Hskip : forall b : bool, exists w1,
             (if b then do console_log "[SW] Skip waiting demande" then skipWaiting
              else ret tt) w = (Ok tt, w1)
             /\ caches w1 = caches w /\ pending w1 = pending w).
  { intros [|]; run_code; eexists; repeat split. }
  destruct (Hskip (data_type_is d "SKIP_WAITING")) as (w1 & Hrun1 & Hc1 & Hp1).
  unfold bind at 1. rewrite Hrun1.
  assert (Hw1 : world_ok w1 = true).
  { apply world_ok_split in Hw. apply world_ok_split. now rewrite Hc1, Hp1. }
  destruct (data_type_is d "CLEAR_CACHE") eqn:Hclear; [|exact Hw1].
  destruct d as [[ty|]|]; try discriminate.
  simpl in Hclear. apply String.eqb_eq in Hclear. subst ty.
  destruct (onmessage_clear_effect w1) as (w' & Hrun & Hc & Hr).
  unfold onmessage in Hrun. simpl in Hrun. unfold bind at 1, ret at 1 in Hrun.
  rewrite Hrun. simpl.
  apply (same_rest_ok w1 w' Hr); [now rewrite Hc | exact Hw1].
Qed.

Lemma delete_tasks_ok (i : nat) (ts : list Task) :
  forallb task_ok ts = true -> forallb task_ok (delete i ts) = true.
Proof.
  revert i. induction ts as [|t ts IH]; intros [|i]; simpl; try reflexivity.
  - intros H. now apply andb_prop in H as [_ H].
  - intros H. apply andb_prop in H as [Ht H]. now rewrite Ht, IH.
Qed.

Lemma lookup_task_ok (i : nat) (ts : list Task) (t : Task) :
  forallb task_ok ts = true -> ts !! i = Some t -> task_ok t = true.
Proof.
  intros H Hi. rewrite forallb_forall in H. apply H.
  apply list_elem_of_In. eapply list_elem_of_lookup_2. exact Hi.
Qed.

Lemma run_task_ok (net : Network) (t : Task) (w : World) :
  task_ok t = true ->
  world_ok w = true -> world_ok (snd (run_task net t w)) = true.
Proof.
  intros Ht Hw. destruct t as [cacheName request d | request cacheName]; simpl.
  - apply world_ok_split in Hw as [Hcs Hts]. apply world_ok_split. simpl.
    split; [|exact Hts].
    apply storage_ok_update; [|exact Hcs].
    intros c Hc. now apply cache_store_ok.
  - destruct (updateCache_effect net request cacheName w)
      as (w' & new & Hrun & Hconf & Hnew).
    rewrite Hrun. simpl.
    apply (confined_ok cacheName new w w' Hconf); [|exact Hw].
    destruct Hnew as [-> | (d & _ & Hst & Hm & ->)]; [reflexivity|].
    cbn [forallb]. now rewrite put_task_ok.
Qed.

Lemma oninstall_ok (base : URL) (net : Network) (w : World) :
  world_ok w = true -> world_ok (snd (oninstall base net w)) = true.
Proof.
  intros Hw.
  destruct (oninstall_effect base net w) as (r & w' & Hrun & Hc & _ & Hp & _).
  rewrite Hrun. simpl.
  apply world_ok_split in Hw as [Hcs Hts]. apply world_ok_split.
  rewrite Hc, Hp. split; [|exact Hts].
  apply storage_ok_write_all, storage_ok_open, storage_ok_write_all.
  now apply storage_ok_open.
Qed.

Lemma onactivate_ok (w : World) :
  world_ok w = true -> world_ok (snd (onactivate w)) = true.
Proof.
  intros Hw. destruct (onactivate_effect w) as (w' & Hrun & Hc & Hr & _).
  rewrite Hrun. simpl.
  apply (same_rest_ok w w' Hr); [|exact Hw].
  rewrite Hc. apply forallb_filter.
  now apply world_ok_split in Hw as [Hcs _].
Qed.

Lemma settle_ok (base : URL) (net : Network) (i : nat) (w : World) :
  world_ok w = true -> world_ok (deliver base net (EvSettle i) w) = true.
Proof.
  intros Hw. unfold deliver.
  destruct (pending w !! i) as [t|] eqn:Hi; [|exact Hw].
  apply world_ok_split in Hw as [Hcs Hts].
  apply run_task_ok; [eapply lookup_task_ok; eauto|].
  apply world_ok_split. simpl. split; [exact Hcs|].
  now apply delete_tasks_ok.
Qed.

(** Every turn of the event loop keeps the invariant. *)
Lemma deliver_ok (base : URL) (net : Network) (ev : Event) (w : World) :
  world_ok w = true -> world_ok (deliver base net ev w) = true.
Proof.
  intros Hw. destruct ev as [| | request | d | i].
  - unfold deliver. destruct (phase w); try exact Hw.
    pose proof (oninstall_ok base net w Hw) as Hw'.
    destruct (oninstall base net w) as [[a|e] w']; exact Hw'.
  - unfold deliver. destruct (phase w); try exact Hw.
    exact (onactivate_ok w Hw).
  - unfold deliver. destruct (phase w); try exact Hw. now apply onfetch_ok.
  - unfold deliver. destruct (phase w); try exact Hw; now apply onmessage_ok.
  - exact (settle_ok base net i w Hw).
Qed.

Lemma run_ok (base : URL) (turns : list (Network * Event)) :
  forall w, world_ok w = true -> world_ok (run base turns w) = true.
Proof.
  induction turns as [|[net ev] turns IH]; intros w Hw; simpl.
  - exact Hw.
  - apply IH. now apply deliver_ok.
Qed.

(** C6.  The invariant of the cache storage: when every entry of every
    generation was made by a GET request and holds an ok status (200 to
    299), and so does every write under way, the same holds after each
    operation of the worker, whatever the network answers: install with
    its two bulk writes, activate, a fetch event with its miss-path write,
    a message, the settlement of a pending promise (the write of the miss
    path, the background refresh and its write), and hence after any
    sequence of turns of the event loop. *)
Theorem only_successful_GET_responses_are_persisted :
  forall (base : URL) (net : Network) (w : World),
    world_ok w = true ->
    world_ok (snd (oninstall base net w)) = true
    /\ world_ok (snd (onactivate w)) = true
    /\ (forall request, world_ok (snd (onfetch base net request w)) = true)
    /\ (forall d, world_ok (snd (onmessage d w)) = true)
    /\ (forall t, task_ok t = true -> world_ok (snd (run_task net t w)) = true)
    /\ (forall i, world_ok (deliver base net (EvSettle i) w) = true)
    /\ (forall turns, world_ok (run base turns w) = true).
Proof.
  intros base net w Hw.
  split; [now apply oninstall_ok|].
  split; [now apply onactivate_ok|].
  split; [intros request; now apply onfetch_ok|].
  split; [intros d; now apply onmessage_ok|].
  split; [intros t Ht; now apply run_task_ok|].
  split; [intros i; now apply deliver_ok|].
  intros turns. now apply run_ok.
Qed.

(** ** The properties at sample inputs *)

(** Install over an empty storage writes one entry per shell resource into
    the primary generation and one per font into the external one. *)
Example install_writes_the_lists :
  option_map (map (fun e => href (url (fst e))))
    (storage_get (caches (deliver Sample.app Sample.online EvInstall (initial [])))
       CACHE_NAME)
  = Some [ "https://app.example/mesurage/";
           "https://app.example/mesurage/index.html";
           "https://app.example/mesurage/styles.css";
           "https://app.example/mesurage/manifest.json" ]
  /\ option_map (map (fun e => origin (url (fst e))))
       (storage_get (caches (deliver Sample.app Sample.online EvInstall (initial [])))
          EXTERNAL_CACHE_NAME)
     = Some [ "https://fonts.googleapis.com"; "https://fonts.gstatic.com" ].
Proof. vm_compute. split; reflexivity. Qed.

(** Activate deletes the generation of the older version and keeps the
    current one. *)
Example activate_deletes_the_stale_generation :
  caches (deliver Sample.app Sample.online EvActivate Sample.upgraded)
  = [ (CACHE_NAME, [(Sample.index, Sample.answer 200 "new shell")]) ].
Proof. vm_compute. reflexivity. Qed.

(** A cached stylesheet is answered from the cache while the network has a
    newer one; once the refresh and its write have settled, the next
    request gets the newer one. *)
Example refresh_replaces_the_entry :
  let w := Sample.world [ (CACHE_NAME, [(Sample.styles, Sample.answer 200 "old")]) ] in
  let net : Network := fun _ => Some (Sample.answer 200 "new") in
  let first := onfetch Sample.app net Sample.styles w in
  let refreshed :=
    run Sample.app [ (net, EvSettle 0); (net, EvSettle 0) ] (snd first) in
  reply first = Some (Sample.answer 200 "old")
  /\ reply (onfetch Sample.app net Sample.styles refreshed)
     = Some (Sample.answer 200 "new").
Proof. vm_compute. split; reflexivity. Qed.

Lemma non_GET_request_passes_through_witness :
  method Sample.post <> "GET"
  /\ onfetch Sample.app Sample.online Sample.post Sample.active
     = (PassThrough, Sample.active).
Proof.
  assert (H : method Sample.post <> "GET") by discriminate.
  split; [exact H|].
  exact (proj1 (non_GET_request_passes_through
                  Sample.app Sample.online Sample.post Sample.active H)).
Defined.


(** C2 (as stated) fails.  Without network, a request to a font origin is
    answered with the entry of the primary generation although the
    external generation holds nothing for it, and a request to the
    application's own origin is answered with the entry of the external
    generation although the primary generation holds nothing for it. *)
Lemma lookup_ignores_the_routed_generation :
  (is_font_origin (url Sample.font) = true
   /\ generation_match Sample.crossed EXTERNAL_CACHE_NAME Sample.font = None
   /\ generation_match Sample.crossed CACHE_NAME Sample.font
      = Some (Sample.answer 200 "a font")
   /\ reply (onfetch Sample.app offline Sample.font (Sample.world Sample.crossed))
      = Some (Sample.answer 200 "a font"))
  /\ (is_font_origin (url Sample.script) = false
      /\ generation_match Sample.crossed CACHE_NAME Sample.script = None
      /\ generation_match Sample.crossed EXTERNAL_CACHE_NAME Sample.script
         = Some (Sample.answer 200 "a script")
      /\ reply (onfetch Sample.app offline Sample.script (Sample.world Sample.crossed))
         = Some (Sample.answer 200 "a script")).
Proof. vm_compute. repeat split. Qed.

Lemma writes_are_routed_lookups_are_not_witness :
  method Sample.font = "GET"
  /\ protocol (url Sample.font) <> "chrome-extension:"
  /\ exists r w' new,
      onfetch Sample.app Sample.online Sample.font Sample.active
      = (RespondWith (Ok r), w')
      /\ pending w' = pending Sample.active ++ new
      /\ Forall (fun t => task_target t = EXTERNAL_CACHE_NAME) new
      /\ storage_get (caches w') CACHE_NAME = storage_get (caches Sample.active) CACHE_NAME.
Proof.
  assert (Hm : method Sample.font = "GET") by reflexivity.
  assert (Hp : protocol (url Sample.font) <> "chrome-extension:") by discriminate.
  split; [exact Hm|]. split; [exact Hp|].
  destruct (writes_are_routed_lookups_are_not
              Sample.app Sample.online Sample.font Sample.active Hm Hp)
    as (r & w' & new & Hrun & _ & _ & Hother & Hpend & Hnew & _).
  exists r, w', new. split; [exact Hrun|]. split; [exact Hpend|].
  split; [exact Hnew|]. apply Hother. discriminate.
Defined.

(** C3 (as stated) fails.  The application script is in no generation and
    the network answers 200: when the strategy returns that response, the
    primary generation, which it was given, holds no entry for the
    request, and neither does any other; the write is a pending promise. *)
Lemma miss_path_entry_absent_at_return :
  storage_match (caches Sample.active) Sample.script = None
  /\ option_map status (Sample.online Sample.script) = Some 200
  /\ fst (cacheFirstStrategy Sample.app Sample.online Sample.script CACHE_NAME
            Sample.active)
     = Ok (Some 0%nat)
  /\ generation_match
       (caches (snd (cacheFirstStrategy Sample.app Sample.online Sample.script
                       CACHE_NAME Sample.active)))
       CACHE_NAME Sample.script
     = None
  /\ storage_match
       (caches (snd (cacheFirstStrategy Sample.app Sample.online Sample.script
                       CACHE_NAME Sample.active)))
       Sample.script
     = None
  /\ pending (snd (cacheFirstStrategy Sample.app Sample.online Sample.script
                     CACHE_NAME Sample.active))
     = [TPut CACHE_NAME Sample.script
          (Sample.answer 200 "https://app.example/mesurage/app.js")].
Proof. vm_compute. repeat split. Qed.

Lemma miss_path_write_is_pending_at_return_witness :
  method Sample.script = "GET"
  /\ storage_match (caches Sample.active) Sample.script = None
  /\ Sample.online Sample.script
     = Some (Sample.answer 200 "https://app.example/mesurage/app.js")
  /\ exists w',
      cacheFirstStrategy Sample.app Sample.online Sample.script CACHE_NAME Sample.active
      = (Ok (Some 0%nat), w')
      /\ generation_match (caches w') CACHE_NAME Sample.script = None
      /\ generation_match
           (caches (deliver Sample.app offline (EvSettle 0) w'))
           CACHE_NAME Sample.script
         = Some (Sample.answer 200 "https://app.example/mesurage/app.js").
Proof.
  assert (Hm : method Sample.script = "GET") by reflexivity.
  assert (Hmiss : storage_match (caches Sample.active) Sample.script = None)
    by (vm_compute; reflexivity).
  assert (Hnet : Sample.online Sample.script
                 = Some (Sample.answer 200 "https://app.example/mesurage/app.js"))
    by (vm_compute; reflexivity).
  split; [exact Hm|]. split; [exact Hmiss|]. split; [exact Hnet|].
  destruct (miss_path_write_is_pending_at_return
              Sample.app Sample.online offline Sample.script CACHE_NAME Sample.active
              _ Hm Hmiss Hnet eq_refl)
    as (w' & Hrun & _ & _ & Habsent & _ & Hsettled & _).
  exists w'. split; [exact Hrun|]. split; [exact Habsent | exact Hsettled].
Defined.

Lemma only_successful_GET_responses_are_persisted_witness :
  world_ok (initial []) = true
  /\ world_ok
       (run Sample.app
          [ (Sample.online, EvInstall); (Sample.online, EvActivate);
            (Sample.online, EvFetch Sample.script); (Sample.online, EvSettle 0);
            (Sample.online, EvFetch Sample.script); (Sample.online, EvSettle 0);
            (Sample.online, EvSettle 0) ]
          (initial []))
     = true.
Proof.
  assert (H : world_ok (initial []) = true) by reflexivity.
  split; [exact H|].
  destruct (only_successful_GET_responses_are_persisted
              Sample.app Sample.online (initial []) H)
    as (_ & _ & _ & _ & _ & _ & Hrun).
  apply Hrun.
Defined.

Lemma install_fails_only_when_the_shell_write_fails_witness :
  phase (initial []) = Installing
  /\ phase (deliver Sample.app Sample.no_fonts EvInstall (initial [])) = Installed
  /\ skipWaitingFlag (deliver Sample.app Sample.no_fonts EvInstall (initial [])) = true
  /\ phase (deliver Sample.app offline EvInstall (initial [])) = Redundant.
Proof.
  assert (H : phase (initial []) = Installing) by reflexivity.
  split; [exact H|].
  pose proof (install_fails_only_when_the_shell_write_fails
                Sample.app Sample.no_fonts (initial []) H) as Hshell.
  pose proof (install_fails_only_when_the_shell_write_fails
                Sample.app offline (initial []) H) as Hnone.
  destruct (fetch_all Sample.no_fonts (map (request_of Sample.app) CACHE_URLS)) eqn:E1;
    [|vm_compute in E1; discriminate E1].
  destruct (fetch_all offline (map (request_of Sample.app) CACHE_URLS)) eqn:E2;
    [vm_compute in E2; discriminate E2|].
  destruct Hshell as (Hph & Hflag & _). destruct Hnone as (Hred & _).
  split; [exact Hph|]. split; [exact Hflag | exact Hred].
Defined.

Lemma offline_navigation_gets_offline_document_witness :
  storage_match (caches Sample.active) Sample.unknown = None
  /\ offline Sample.unknown = None
  /\ destination Sample.unknown = "document"
  /\ exists w',
      cacheFirstStrategy Sample.app offline Sample.unknown CACHE_NAME Sample.active
      = (Ok (Some 0%nat), w')
      /\ heap w' !! 0%nat
         = Some (mkResponse
                   (Sample.answer 200 "https://app.example/mesurage/index.html") false).
Proof.
  assert (Hmiss : storage_match (caches Sample.active) Sample.unknown = None)
    by (vm_compute; reflexivity).
  split; [exact Hmiss|]. split; [reflexivity|]. split; [reflexivity|].
  destruct (offline_navigation_gets_offline_document
              Sample.app offline Sample.unknown CACHE_NAME Sample.active
              Hmiss eq_refl eq_refl)
    as (r & w' & Hrun & _ & Hdoc).
  destruct (storage_match (caches Sample.active) (request_of Sample.app "./index.html"))
    as [d|] eqn:E; vm_compute in E; [|discriminate E].
  injection E as <-. destruct Hdoc as [-> Hheap].
  exists w'. split; [exact Hrun | exact Hheap].
Defined.

Lemma offline_miss_gets_408_witness :
  storage_match (caches Sample.active) Sample.script = None
  /\ offline Sample.script = None
  /\ destination Sample.script <> "document"
  /\ exists w',
      cacheFirstStrategy Sample.app offline Sample.script CACHE_NAME Sample.active
      = (Ok (Some 0%nat), w')
      /\ heap w' !! 0%nat = Some (mkResponse (mkResponseData 408 "Offline" "") false).
Proof.
  assert (Hmiss : storage_match (caches Sample.active) Sample.script = None)
    by (vm_compute; reflexivity).
  assert (Hd : destination Sample.script <> "document") by discriminate.
  split; [exact Hmiss|]. split; [reflexivity|]. split; [exact Hd|].
  destruct (offline_miss_gets_408
              Sample.app offline Sample.script CACHE_NAME Sample.active
              Hmiss eq_refl Hd)
    as (w' & Hrun & Hheap & _).
  exists w'. split; [exact Hrun | exact Hheap].
Defined.

(** ** Further properties of the fetch handler *)

(** Every path of the strategy, with what it returns and what it leaves. *)
Lemma cacheFirstStrategy_cases (base : URL) (net : Network) (request : Request)
  (cacheName : string) (w : World) :
  exists r w',
    cacheFirstStrategy base net request cacheName w = (Ok r, w')
    /\ match storage_match (caches w) request with
       | Some hit =>
           r = Some (length (heap w))
           /\ heap w' = heap w ++ [mkResponse hit false]
           /\ caches w' = caches w
           /\ pending w' = pending w ++ [TUpdateCache request cacheName]
       | None =>
           match net request with
           | Some d =>
               r = Some (length (heap w))
               /\ if status d =? 200 then
                    caches w' = storage_open cacheName (caches w)
                    /\ if String.eqb (method request) "GET" then
                         heap w' = heap w ++ [mkResponse d false; mkResponse d true]
                         /\ pending w' = pending w ++ [TPut cacheName request d]
                       else
                         heap w' = heap w ++ [mkResponse d false; mkResponse d false]
                         /\ pending w' = pending w
                  else
                    heap w' = heap w ++ [mkResponse d false]
                    /\ caches w' = caches w
                    /\ pending w' = pending w
           | None =>
               caches w' = caches w
               /\ pending w' = pending w
               /\ if String.eqb (destination request) "document" then
                    match storage_match (caches w) (request_of base "./index.html") with
                    | Some doc =>
                        r = Some (length (heap w))
                        /\ heap w' = heap w ++ [mkResponse doc false]
                    | None => r = None /\ heap w' = heap w
                    end
                  else
                    r = Some (length (heap w))
                    /\ heap w' = heap w ++ [offline_response]
           end
       end.
Proof.
  unfold cacheFirstStrategy. run_code.
  destruct (storage_match (caches w) request) as [hit|] eqn:Hhit; cbn.
  { eexists _, _. split; [reflexivity|]. cbn. repeat split. }
  destruct (net request) as [d|] eqn:Hnet; cbn.
  2:{ destruct (String.eqb (destination request) "document"); cbn.
      - destruct (storage_match (caches w) (request_of base "./index.html")); cbn;
          eexists _, _; (split; [reflexivity|]); cbn; repeat split.
      - eexists _, _. split; [reflexivity|]. cbn. repeat split. }
  heap_step.
  destruct (status d =? 200) eqn:Hst; cbn.
  2:{ eexists _, _. split; [reflexivity|]. cbn. repeat split. }
  do 2 heap_step.
  destruct (String.eqb (method request) "GET") eqn:Hm; cbn.
  - eexists _, _. split; [reflexivity|]. cbn. do 2 heap_step.
    rewrite <- app_assoc. repeat split.
  - eexists _, _. split; [reflexivity|]. cbn.
    rewrite <- app_assoc. repeat split.
Qed.

(** X1.  The fetch handler leaves a request to the platform exactly when
    its method is not GET or its scheme is the extension scheme, and then
    the world is as it was; every other request gets a [respondWith] whose
    promise is fulfilled. *)
Theorem fetch_intercepts_exactly_GET_outside_extensions :
  forall (base : URL) (net : Network) (request : Request) (w : World),
    (fst (onfetch base net request w) = PassThrough
     <-> method request <> "GET" \/ protocol (url request) = "chrome-extension:")
    /\ (fst (onfetch base net request w) = PassThrough ->
        snd (onfetch base net request w) = w)
    /\ (fst (onfetch base net request w) <> PassThrough ->
        exists r, fst (onfetch base net request w) = RespondWith (Ok r)).
Proof.
  intros base net request w.
  destruct (String.eqb (method request) "GET") eqn:Hm.
  - destruct (String.eqb (protocol (url request)) "chrome-extension:") eqn:Hp.
    + assert (H : onfetch base net request w = (PassThrough, w)).
      { unfold onfetch. now rewrite Hm, Hp. }
      rewrite H. simpl. apply String.eqb_eq in Hp.
      split; [split; auto|]. split; [reflexivity | congruence].
    + apply String.eqb_eq in Hm. apply String.eqb_neq in Hp.
      rewrite (onfetch_routed base net request w Hm Hp). unfold respondWith.
      destruct (cacheFirstStrategy_cases base net request (routed_generation request) w)
        as (r & w' & Hrun & _).
      rewrite Hrun. simpl.
      split; [|split; [discriminate | eauto]].
      split; [discriminate|]. intros [H | H]; contradiction.
  - assert (H : onfetch base net request w = (PassThrough, w)).
    { unfold onfetch. now rewrite Hm. }
    rewrite H. simpl. apply String.eqb_neq in Hm.
    split; [split; auto|]. split; [reflexivity | congruence].
Qed.

(** X2.  On the miss path a response whose status is not 200 (a 404, a
    500, a 204, an opaque 0) is handed to the caller as the network gave
    it, unconsumed; it is not cloned, no generation is opened or written
    and no promise is left behind. *)
Theorem miss_path_does_not_store_other_statuses :
  forall (base : URL) (net : Network) (request : Request) (cacheName : string)
         (w : World) (d : ResponseData),
    storage_match (caches w) request = None ->
    net request = Some d ->
    status d <> 200 ->
    exists w',
      cacheFirstStrategy base net request cacheName w
      = (Ok (Some (length (heap w))), w')
      /\ heap w' = heap w ++ [mkResponse d false]
      /\ caches w' = caches w
      /\ pending w' = pending w.
Proof.
  intros base net request cacheName w d Hmiss Hnet Hst.
  destruct (cacheFirstStrategy_cases base net request cacheName w)
    as (r & w' & Hrun & Hcase).
  rewrite Hmiss, Hnet in Hcase. apply Z.eqb_neq in Hst. rewrite Hst in Hcase.
  destruct Hcase as (-> & Hh & Hc & Hp).
  exists w'. now repeat split.
Qed.

(** X3.  The promise of the strategy is always fulfilled, never rejected,
    and it is fulfilled with [undefined] in one case only: a navigation
    request that no generation holds, whose fetch rejects, while no
    generation holds the offline document either. *)
Theorem strategy_always_fulfils :
  forall (base : URL) (net : Network) (request : Request) (cacheName : string)
         (w : World),
    exists r w',
      cacheFirstStrategy base net request cacheName w = (Ok r, w')
      /\ (r = None <->
          storage_match (caches w) request = None
          /\ net request = None
          /\ destination request = "document"
          /\ storage_match (caches w) (request_of base "./index.html") = None).
Proof.
  intros base net request cacheName w.
  destruct (cacheFirstStrategy_cases base net request cacheName w)
    as (r & w' & Hrun & Hcase).
  exists r, w'. split; [exact Hrun|].
  destruct (storage_match (caches w) request) as [hit|].
  { destruct Hcase as (-> & _). split; [discriminate | now intros [? _]]. }
  destruct (net request) as [d|].
  { destruct Hcase as (-> & _). split; [discriminate | now intros (_ & ? & _)]. }
  destruct Hcase as (_ & _ & Hcase).
  destruct (String.eqb (destination request) "document") eqn:Hd.
  - apply String.eqb_eq in Hd.
    destruct (storage_match (caches w) (request_of base "./index.html")) as [doc|].
    + destruct Hcase as (-> & _). split; [discriminate | now intros (_ & _ & _ & ?)].
    + destruct Hcase as (-> & _). now split.
  - apply String.eqb_neq in Hd. destruct Hcase as (-> & _).
    split; [discriminate | now intros (_ & _ & ? & _)].
Qed.

(** X8.  Whatever the path, the Response the strategy returns is a new
    object whose body has not been used, and the Response objects that
    existed before are untouched: the only body the strategy consumes is
    that of its own clone. *)
Theorem strategy_returns_an_unconsumed_response :
  forall (base : URL) (net : Network) (request : Request) (cacheName : string)
         (w : World),
    exists r w' fresh,
      cacheFirstStrategy base net request cacheName w = (Ok r, w')
      /\ heap w' = heap w ++ fresh
      /\ (forall rid, r = Some rid ->
            rid = length (heap w)
            /\ exists d, heap w' !! rid = Some (mkResponse d false)).
Proof.
  intros base net request cacheName w.
  destruct (cacheFirstStrategy_cases base net request cacheName w)
    as (r & w' & Hrun & Hcase).
  assert (Hgen : forall (d : ResponseData) (rest : list Response),
             r = Some (length (heap w)) ->
             heap w' = heap w ++ mkResponse d false :: rest ->
             exists fresh,
               heap w' = heap w ++ fresh
               /\ (forall rid, r = Some rid ->
                     rid = length (heap w)
                     /\ exists d, heap w' !! rid = Some (mkResponse d false))).
  { intros d rest -> Hh. exists (mkResponse d false :: rest). split; [exact Hh|].
    intros rid [= <-]. split; [reflexivity|]. exists d. rewrite Hh.
    change (mkResponse d false :: rest) with ([mkResponse d false] ++ rest).
    rewrite app_assoc, lookup_app_l by (rewrite length_app; simpl; lia).
    apply lookup_snoc_length. }
  exists r, w'.
  destruct (storage_match (caches w) request) as [hit|].
  { destruct Hcase as (Hr & Hh & _).
    destruct (Hgen hit [] Hr Hh) as (fresh & ? & ?). eauto. }
  destruct (net request) as [d|].
  { destruct Hcase as (Hr & Hcase).
    destruct (status d =? 200).
    - destruct Hcase as (_ & Hcase).
      destruct (String.eqb (method request) "GET"); destruct Hcase as (Hh & _);
        destruct (Hgen d _ Hr Hh) as (fresh & ? & ?); eauto.
    - destruct Hcase as (Hh & _).
      destruct (Hgen d [] Hr Hh) as (fresh & ? & ?). eauto. }
  destruct Hcase as (_ & _ & Hcase).
  destruct (String.eqb (destination request) "document").
  - destruct (storage_match (caches w) (request_of base "./index.html")) as [doc|].
    + destruct Hcase as (Hr & Hh).
      destruct (Hgen doc [] Hr Hh) as (fresh & ? & ?). eauto.
    + destruct Hcase as (-> & Hh). exists []. rewrite app_nil_r.
      split; [exact Hrun|]. split; [exact Hh | discriminate].
  - destruct Hcase as (Hr & Hh).
    destruct (Hgen _ [] Hr Hh) as (fresh & ? & ?). eauto.
Qed.

(** ** Further properties of the background refresh *)

(** X4.  A refresh that fails is silent: when its fetch rejects, or answers
    with a status other than 200, [updateCache] is fulfilled all the same,
    no generation is opened or written, no promise is left, and nothing is
    logged: the trace gains the fetch and no console line. *)
Theorem failed_refresh_is_silent :
  forall (net : Network) (request : Request) (cacheName : string) (w : World),
    net request = None \/ (exists d, net request = Some d /\ status d <> 200) ->
    exists w',
      updateCache net request cacheName w = (Ok tt, w')
      /\ caches w' = caches w
      /\ pending w' = pending w
      /\ trace w' = NetFetch (href (url request)) :: trace w.
Proof.
  intros net request cacheName w Hnet. unfold updateCache. run_code.
  destruct Hnet as [-> | (d & -> & Hst)]; cbn.
  - eexists. repeat split.
  - heap_step. apply Z.eqb_neq in Hst. rewrite Hst. cbn.
    eexists. repeat split.
Qed.

(** A refresh whose fetch answers 200 opens the generation and hands a
    clone to [cache.put]. *)
Lemma updateCache_200 (net : Network) (request : Request) (cacheName : string)
  (w : World) (d : ResponseData) :
  method request = "GET" ->
  net request = Some d ->
  status d = 200 ->
  exists w',
    updateCache net request cacheName w = (Ok tt, w')
    /\ caches w' = storage_open cacheName (caches w)
    /\ pending w' = pending w ++ [TPut cacheName request d]
    /\ In (Console LLog ("[SW] Cache mis a jour: " ++ href (url request))%string)
          (trace w').
Proof.
  intros Hm Hnet Hst. unfold updateCache. run_code.
  rewrite Hnet. cbn. heap_step. rewrite Hst. cbn. do 2 heap_step.
  rewrite Hm. cbn. eexists. split; [reflexivity|]. cbn.
  split; [reflexivity|]. split; [reflexivity | now left].
Qed.

Lemma delete_snoc_length {A} (l : list A) (x : A) : delete (length l) (l ++ [x]) = l.
Proof.
  induction l as [|a l IH]; simpl; [reflexivity|]. now rewrite IH.
Qed.

Lemma filter_app_list {A} (f : A -> bool) (l1 l2 : list A) :
  List.filter f (l1 ++ l2) = List.filter f l1 ++ List.filter f l2.
Proof.
  induction l1 as [|x l1 IH]; simpl; [reflexivity|].
  destruct (f x); simpl; now rewrite IH.
Qed.

(** After a put the cache holds exactly one entry for the request. *)
Lemma cache_store_unique (request : Request) (d : ResponseData) (c : Cache) :
  method request = "GET" ->
  List.filter (fun e => request_matches request (fst e)) (cache_store request d c)
  = [(request, d)].
Proof.
  intros Hm. unfold cache_store. rewrite filter_app_list, filter_filter_and.
  rewrite (filter_none (fun x => negb (request_matches request (fst x))
                                 && request_matches request (fst x))).
  - simpl. now rewrite request_matches_refl.
  - intros e _. now destruct (request_matches request (fst e)).
Qed.

(** X5.  The refresh behind a cache hit overwrites: when its fetch answers
    200 and the put it issues has settled, the generation the strategy was
    given holds the new response for the request, as its only entry for
    that request, and no promise of the two is left. *)
Theorem refresh_overwrites_the_entry :
  forall (base : URL) (net0 net net' : Network) (request : Request)
         (cacheName : string) (w : World) (hit d : ResponseData),
    method request = "GET" ->
    storage_match (caches w) request = Some hit ->
    net request = Some d ->
    status d = 200 ->
    exists c,
      storage_get
        (caches (run base [ (net, EvSettle (length (pending w)));
                            (net', EvSettle (length (pending w))) ]
                   (snd (cacheFirstStrategy base net0 request cacheName w))))
        cacheName = Some c
      /\ cache_match c request = Some d
      /\ List.filter (fun e => request_matches request (fst e)) c = [(request, d)]
      /\ pending (run base [ (net, EvSettle (length (pending w)));
                             (net', EvSettle (length (pending w))) ]
                    (snd (cacheFirstStrategy base net0 request cacheName w)))
         = pending w.
Proof.
  intros base net0 net net' request cacheName w hit d Hm Hhit Hnet Hst.
  destruct (cacheFirstStrategy_hit base net0 request cacheName w hit Hhit)
    as (w1 & Hrun1 & _ & Hc1 & Hp1 & _).
  rewrite Hrun1. cbn [snd run].
  assert (H2 : exists w2,
             deliver base net (EvSettle (length (pending w))) w1 = w2
             /\ caches w2 = storage_open cacheName (caches w)
             /\ pending w2 = pending w ++ [TPut cacheName request d]).
  { unfold deliver. rewrite Hp1, lookup_snoc_length. unfold run_task.
    destruct (updateCache_200 net request cacheName
                (set_pending (delete (length (pending w))) w1) d Hm Hnet Hst)
      as (w2 & Hrun2 & Hc2 & Hp2 & _).
    rewrite Hrun2. exists w2. split; [reflexivity|].
    rewrite Hc2, Hp2. simpl. rewrite Hc1, Hp1, delete_snoc_length. now split. }
  destruct H2 as (w2 & -> & Hc2 & Hp2).
  unfold deliver. rewrite Hp2, lookup_snoc_length. simpl.
  rewrite storage_get_update_same, Hc2, storage_get_open_same, Hp2, delete_snoc_length.
  destruct (storage_get (caches w) cacheName) as [c|]; cbv [option_map];
    eexists; (split; [reflexivity|]);
    (split; [now apply cache_match_store|]);
    (split; [now apply cache_store_unique | reflexivity]).
Qed.

(** ** Further properties of the message handler *)

(** What a message does, by the type of its payload. *)
Lemma onmessage_effect (d : MessageData) (w : World) :
    exists w',
      onmessage d w = (Ok tt, w')
      /\ caches w' = (if data_type_is d "CLEAR_CACHE" then [] else caches w)
      /\ skipWaitingFlag w' = (data_type_is d "SKIP_WAITING" || skipWaitingFlag w)
      /\ heap w' = heap w /\ pending w' = pending w /\ phase w' = phase w
      /\ (data_type_is d "SKIP_WAITING" = false ->
          data_type_is d "CLEAR_CACHE" = false -> w' = w).
Proof.
  destruct (data_type_is d "SKIP_WAITING") eqn:Hskip.
  - destruct d as [[ty|]|]; try discriminate.
    simpl in Hskip. apply String.eqb_eq in Hskip. subst ty.
    unfold onmessage. simpl. run_code.
    eexists. split; [reflexivity|]. cbn. repeat split. discriminate.
  - destruct (data_type_is d "CLEAR_CACHE") eqn:Hclear.
    + destruct d as [[ty|]|]; try discriminate.
      simpl in Hclear. apply String.eqb_eq in Hclear. subst ty.
      destruct (onmessage_clear_effect w) as (w' & Hrun & Hc & Hh & Hp & Hf & Hph).
      exists w'. split; [exact Hrun|]. repeat split; auto. discriminate.
    + exists w. split.
      { unfold onmessage. rewrite Hskip, Hclear. reflexivity. }
      destruct w. repeat split.
Qed.

(** X7.  The message handler never throws.  It empties the cache storage
    only for a payload of type CLEAR_CACHE and calls [skipWaiting] only for
    a payload of type SKIP_WAITING; any other payload (null, no type,
    another type) leaves the world exactly as it was.  Response objects,
    pending promises and the phase are never touched. *)
Theorem message_effect_by_type :
  forall (d : MessageData) (w : World),
    exists w',
      onmessage d w = (Ok tt, w')
      /\ caches w' = (if data_type_is d "CLEAR_CACHE" then [] else caches w)
      /\ skipWaitingFlag w' = (data_type_is d "SKIP_WAITING" || skipWaitingFlag w)
      /\ heap w' = heap w /\ pending w' = pending w /\ phase w' = phase w
      /\ (data_type_is d "SKIP_WAITING" = false ->
          data_type_is d "CLEAR_CACHE" = false -> w' = w).
Proof. exact onmessage_effect. Qed.

(** ** Generations the worker does not own *)

Lemma storage_get_filter (g : string -> bool) (cs : CacheStorage) (name : string) :
  storage_get (List.filter (fun p => g (fst p)) cs) name
  = if g name then storage_get cs name else None.
Proof.
  induction cs as [|[n c] cs IH]; simpl; [now destruct (g name)|].
  destruct (g n) eqn:Hg; simpl; destruct (String.eqb n name) eqn:E.
  - apply String.eqb_eq in E. subst n. now rewrite Hg.
  - exact IH.
  - apply String.eqb_eq in E. subst n. rewrite Hg in IH |- *. exact IH.
  - exact IH.
Qed.

Lemma storage_get_write_all_other (name other : string)
  (entries : option (list (Request * ResponseData))) (cs : CacheStorage) :
  other <> name ->
  storage_get (write_all name entries cs) other = storage_get cs other.
Proof.
  intros Hne. destruct entries as [es|]; simpl; [|reflexivity].
  now apply storage_get_update_other.
Qed.

Lemma foreign_name (name : string) :
  own_generation name = false ->
  name <> CACHE_NAME /\ name <> EXTERNAL_CACHE_NAME.
Proof.
  unfold own_generation. intros H. apply orb_false_elim in H as [H1 H2].
  now apply String.eqb_neq in H1, H2.
Qed.

Lemma routed_generation_own (request : Request) :
  own_generation (routed_generation request) = true.
Proof.
  unfold routed_generation. now destruct (is_font_origin (url request)).
Qed.

Lemma forallb_delete {A} (f : A -> bool) (i : nat) (l : list A) :
  forallb f l = true -> forallb f (delete i l) = true.
Proof.
  revert i. induction l as [|x l IH]; intros [|i]; simpl; try reflexivity.
  - intros H. now apply andb_prop in H as [_ H].
  - intros H. apply andb_prop in H as [Hx H]. now rewrite Hx, IH.
Qed.

(** One turn leaves a generation the worker does not own as it was, or
    deletes it; and it leaves no promise that would write to it. *)
Lemma deliver_foreign (base : URL) (net : Network) (ev : Event) (w : World)
  (name : string) :
  own_generation name = false ->
  tasks_own w = true ->
  tasks_own (deliver base net ev w) = true
  /\ (storage_get (caches (deliver base net ev w)) name = storage_get (caches w) name
      \/ storage_get (caches (deliver base net ev w)) name = None).
Proof.
  intros Hname Hown. destruct (foreign_name name Hname) as [Hn1 Hn2].
  destruct ev as [| | request | d | i]; unfold deliver.
  - destruct (phase w); auto.
    destruct (oninstall_effect base net w) as (r & w' & Hrun & Hc & _ & Hp & _).
    rewrite Hrun.
    assert (Hw' : tasks_own w' = true
                  /\ storage_get (caches w') name = storage_get (caches w) name).
    { split; [unfold tasks_own; now rewrite Hp|].
      rewrite Hc, storage_get_write_all_other, storage_get_open_other,
        storage_get_write_all_other, storage_get_open_other by assumption.
      reflexivity. }
    destruct Hw' as [Ht Hg]. destruct r; simpl; auto.
  - destruct (phase w); auto.
    destruct (onactivate_effect w) as (w' & Hrun & Hc & (_ & Hp & _) & _).
    rewrite Hrun. simpl. split; [unfold tasks_own; simpl; now rewrite Hp|].
    rewrite Hc, storage_get_filter. destruct (recognized name); auto.
  - destruct (phase w); auto.
    destruct (String.eqb (method request) "GET") eqn:Hm.
    2:{ unfold onfetch. rewrite Hm. simpl. auto. }
    destruct (String.eqb (protocol (url request)) "chrome-extension:") eqn:Hp.
    { unfold onfetch. rewrite Hm, Hp. simpl. auto. }
    apply String.eqb_eq in Hm. apply String.eqb_neq in Hp.
    rewrite (onfetch_routed base net request w Hm Hp). unfold respondWith.
    pose proof (routed_generation_own request) as Hg.
    destruct (cacheFirstStrategy_effect base net request (routed_generation request) w)
      as (r & w' & new & Hrun & Hconf & Hnew).
    rewrite Hrun. simpl. split.
    + destruct Hconf as (_ & Hpend & _). unfold tasks_own.
      rewrite Hpend, forallb_app. fold (tasks_own w). rewrite Hown.
      destruct Hnew as [-> | [-> | (d & _ & _ & _ & ->)]]; simpl;
        rewrite ?Hg; reflexivity.
    + left. eapply confined_other_generations; [exact Hconf|].
      intros ->. congruence.
  - assert (Hmsg : tasks_own (snd (onmessage d w)) = true
                   /\ (storage_get (caches (snd (onmessage d w))) name
                       = storage_get (caches w) name
                       \/ storage_get (caches (snd (onmessage d w))) name = None)).
    { destruct (onmessage_effect d w) as (w' & Hrun & Hc & _ & _ & Hp & _).
      rewrite Hrun. simpl. split; [unfold tasks_own; now rewrite Hp|].
      rewrite Hc. destruct (data_type_is d "CLEAR_CACHE"); auto. }
    destruct (phase w); auto.
  - destruct (pending w !! i) as [t|] eqn:Hi; auto.
    assert (Ht : own_generation (task_target t) = true).
    { unfold tasks_own in Hown. rewrite forallb_forall in Hown. apply Hown.
      apply list_elem_of_In. eapply list_elem_of_lookup_2. exact Hi. }
    destruct (run_task_confined net t (set_pending (delete i) w))
      as (v' & new & Hrun & Hother & Hpend & Hnew & _).
    rewrite Hrun. simpl. split.
    + unfold tasks_own. rewrite Hpend, forallb_app. simpl.
      rewrite (forallb_delete _ i _ Hown). simpl.
      apply forallb_forall. intros t' Hin.
      rewrite Forall_forall in Hnew.
      rewrite (Hnew t') by now apply list_elem_of_In. exact Ht.
    + left. rewrite Hother; [reflexivity|]. intros ->. congruence.
Qed.

(** X9.  The worker opens and writes the primary and the external
    generation and no other: through any sequence of turns, a generation
    under another name (the reserved data generation, one a page made)
    keeps exactly its entries, unless a turn deleted it (activate for an
    unrecognized name, the clear-cache message for any), and once deleted
    it is not made again. *)
Theorem other_generations_are_never_written :
  forall (base : URL) (turns : list (Network * Event)) (w : World) (name : string),
    own_generation name = false ->
    tasks_own w = true ->
    storage_get (caches (run base turns w)) name = storage_get (caches w) name
    \/ storage_get (caches (run base turns w)) name = None.
Proof.
  intros base turns. induction turns as [|[net ev] turns IH]; intros w name Hname Hown.
  - now left.
  - simpl. destruct (deliver_foreign base net ev w name Hname Hown) as [Hown' Hstep].
    destruct (IH (deliver base net ev w) name Hname Hown') as [Hrest | Hrest].
    + rewrite Hrest. exact Hstep.
    + now right.
Qed.

(** ** Further properties of install and activate *)

(** X10.  A failed install writes no shell entry and is not rolled back.
    When the bulk write of the shell list fails, the install promise
    rejects and [skipWaiting] is not called; the primary generation has
    been opened all the same: it exists, with exactly the entries it had
    before (none if it is new), and no generation under a name other than
    the primary and the external one has changed. *)
Theorem failed_install_leaves_the_primary_generation :
  forall (base : URL) (net : Network) (w : World),
    fetch_all net (map (request_of base) CACHE_URLS) = None ->
    exists e w',
      oninstall base net w = (Throw e, w')
      /\ storage_get (caches w') CACHE_NAME
         = Some (match storage_get (caches w) CACHE_NAME with
                 | Some c => c
                 | None => []
                 end)
      /\ skipWaitingFlag w' = skipWaitingFlag w
      /\ (forall name,
             name <> CACHE_NAME -> name <> EXTERNAL_CACHE_NAME ->
             storage_get (caches w') name = storage_get (caches w) name).
Proof.
  intros base net w Hshell.
  destruct (oninstall_effect base net w)
    as (r & w' & Hrun & Hc & _ & _ & _ & Hres & _).
  rewrite Hshell in Hc, Hres. destruct Hres as ((e & ->) & Hflag).
  exists e, w'. split; [exact Hrun|]. rewrite Hc.
  change (write_all CACHE_NAME None (storage_open CACHE_NAME (caches w)))
    with (storage_open CACHE_NAME (caches w)).
  assert (Hne : CACHE_NAME <> EXTERNAL_CACHE_NAME) by discriminate.
  split; [|split; [exact Hflag|]].
  - rewrite storage_get_write_all_other, storage_get_open_other,
      storage_get_open_same by assumption.
    now destruct (storage_get (caches w) CACHE_NAME).
  - intros name Hn1 Hn2.
    rewrite storage_get_write_all_other by exact Hn2.
    rewrite storage_get_open_other by exact Hn2.
    now rewrite storage_get_open_other by exact Hn1.
Qed.

(** The calls of a [Promise.all] over one callback per name, when each
    callback makes the calls [calls] says. *)
Lemma promise_all_calls {A} (h : string -> M A) (calls : string -> list Effect) :
  (forall name w, exists a w',
      h name w = (Ok a, w') /\ trace w' = rev (calls name) ++ trace w) ->
  forall names w, exists rs w',
      promise_all (map h names) w = (Ok rs, w')
      /\ trace w' = rev (flat_map calls names) ++ trace w.
Proof.
  intros Hh names. induction names as [|n names IH]; intros w.
  - exists [], w. split; reflexivity.
  - destruct (Hh n w) as (a & w1 & Hrun1 & Ht1).
    destruct (IH w1) as (rs & w' & Hrun & Ht).
    exists (a :: rs), w'. split.
    { simpl. unfold bind, attempt. rewrite Hrun1, Hrun. reflexivity. }
    rewrite Ht, Ht1. simpl. now rewrite rev_app_distr, app_assoc.
Qed.

(** The calls of [activate], most recent first. *)
Lemma onactivate_trace (w : World) :
  exists w',
    onactivate w = (Ok tt, w')
    /\ trace w'
       = ClientsClaim
         :: Console LLog "[SW] Activation terminee - controle de tous les clients"
         :: rev (flat_map activate_calls (map fst (caches w)))
         ++ CachesKeys
         :: Console LLog "[SW] Activation du Service Worker..."
         :: trace w.
Proof.
  unfold onactivate.
  set (h := fun cacheName : string => _).
  destruct (promise_all_calls h activate_calls)
    with (names := map fst (caches w))
         (w := set_trace (cons CachesKeys)
                 (set_trace (cons (Console LLog "[SW] Activation du Service Worker...")) w))
    as (rs & w1 & Hrun & Ht).
  { intros name v. unfold h, activate_calls. rewrite recognized_guard.
    destruct (recognized name); simpl.
    - exists None, v. split; reflexivity.
    - run_code. eexists _, _. split; reflexivity. }
  unfold bind at 1. unfold console_log at 1. unfold emit at 1.
  unfold bind at 1. unfold caches_keys, bind at 1, emit at 1, gets.
  unfold bind at 1. simpl in Hrun |- *. rewrite Hrun.
  run_code. eexists. split; [reflexivity|]. simpl. now rewrite Ht.
Qed.

(** X11.  Activate never fails and ends by claiming the clients: its calls
    are, in order, [caches.keys()], for each enumerated name that is not
    recognized a log line and [caches.delete], and only then, as the last
    call, [clients.claim()].  It is idempotent on the cache storage, and it
    deletes nothing from a storage whose generations all bear recognized
    names: what install wrote survives activation. *)
Theorem activate_deletes_then_claims :
  forall (w : World),
    exists w',
      onactivate w = (Ok tt, w')
      /\ trace w'
         = ClientsClaim
           :: Console LLog "[SW] Activation terminee - controle de tous les clients"
           :: rev (flat_map activate_calls (map fst (caches w)))
           ++ CachesKeys
           :: Console LLog "[SW] Activation du Service Worker..."
           :: trace w
      /\ caches (snd (onactivate w')) = caches w'
      /\ (forallb recognized (map fst (caches w)) = true -> caches w' = caches w).
Proof.
  intros w.
  destruct (onactivate_trace w) as (w1 & Hrun1 & Ht1).
  destruct (onactivate_effect w) as (w1' & Hrun1' & Hc1 & _).
  rewrite Hrun1 in Hrun1'. injection Hrun1' as <-.
  destruct (onactivate_effect w1) as (w2 & Hrun2 & Hc2 & _).
  exists w1. split; [exact Hrun1|]. split; [exact Ht1|].
  rewrite Hrun2. simpl. split.
  - rewrite Hc2, Hc1, filter_filter_and. apply filter_ext.
    intros p. now destruct (recognized (fst p)).
  - intros Hall. rewrite Hc1. apply filter_all. intros p Hin.
    rewrite forallb_forall in Hall. apply Hall. now apply in_map.
Qed.

(** ** From install to the offline shell *)

Lemma append_cancel_l (a b c : string) : (a ++ b = a ++ c)%string -> b = c.
Proof.
  induction a as [|x a IH]; simpl; [auto|]. intros [= H]. now apply IH.
Qed.

(** The four shell URLs resolve to four different URLs, whatever the
    location of the script. *)
Lemma shell_hrefs_distinct (base : URL) (u1 u2 : string) :
  In u1 CACHE_URLS -> In u2 CACHE_URLS ->
  href (url (request_of base u1)) = href (url (request_of base u2)) -> u1 = u2.
Proof.
  intros H1 H2.
  assert (Hsuffix : forall s1 s2 : string,
             href (mkURL (protocol base) (host base) (path base ++ s1)%string)
             = href (mkURL (protocol base) (host base) (path base ++ s2)%string) ->
             s1 = s2).
  { intros s1 s2 H. unfold href in H. simpl in H.
    apply append_cancel_l in H. now apply append_cancel_l in H. }
  simpl in H1, H2.
  destruct H1 as [<- | [<- | [<- | [<- | []]]]];
    destruct H2 as [<- | [<- | [<- | [<- | []]]]];
    try reflexivity; intros H; apply Hsuffix in H; discriminate H.
Qed.

(** A put under another URL leaves the lookup of a request as it was. *)
Lemma cache_store_other (r q : Request) (d : ResponseData) (c : Cache) :
  href (url r) <> href (url q) ->
  cache_match (cache_store r d c) q = cache_match c q.
Proof.
  intros Hne. unfold cache_store. rewrite cache_match_app.
  assert (Hq : request_matches q r = false).
  { unfold request_matches. apply andb_false_iff. right.
    apply String.eqb_neq. congruence. }
  simpl. rewrite Hq.
  assert (Hf : cache_match
                 (List.filter (fun e => negb (request_matches r (fst e))) c) q
               = cache_match c q).
  { induction c as [|[r' d'] c IH]; simpl; [reflexivity|].
    destruct (request_matches r r') eqn:Hr; simpl.
    - assert (Hq' : request_matches q r' = false).
      { unfold request_matches in Hr |- *.
        apply andb_prop in Hr as [_ Hr]. apply String.eqb_eq in Hr.
        apply andb_false_iff. right. apply String.eqb_neq. congruence. }
      rewrite Hq'. exact IH.
    - destruct (request_matches q r'); [reflexivity | exact IH]. }
  rewrite Hf. now destruct (cache_match c q).
Qed.

Lemma fetch_all_cons_inv (net : Network) (r : Request) (rs : list Request)
  (es : list (Request * ResponseData)) :
  fetch_all net (r :: rs) = Some es ->
  exists d es',
    net r = Some d /\ fetch_all net rs = Some es' /\ es = (r, d) :: es'.
Proof.
  change (fetch_all net (r :: rs))
    with (match net r with
          | Some d =>
              if ok_status (status d) && negb (status d =? 206)
              then option_map (cons (r, d)) (fetch_all net rs)
              else None
          | None => None
          end).
  destruct (net r) as [d|]; [|discriminate].
  destruct (ok_status (status d) && negb (status d =? 206)); [|discriminate].
  destruct (fetch_all net rs) as [es'|]; [|discriminate].
  intros [= <-]. eauto.
Qed.

Lemma store_all_cons (r : Request) (d : ResponseData)
  (es : list (Request * ResponseData)) (c : Cache) :
  store_all ((r, d) :: es) c = store_all es (cache_store r d c).
Proof. reflexivity. Qed.

Lemma store_all_other (net : Network) (rs : list Request) (q : Request) :
  ~ In (href (url q)) (map (fun r => href (url r)) rs) ->
  forall es c,
    fetch_all net rs = Some es ->
    cache_match (store_all es c) q = cache_match c q.
Proof.
  induction rs as [|r rs IH]; intros Hnin es c Hes.
  - injection Hes as <-. reflexivity.
  - apply fetch_all_cons_inv in Hes as (d & es' & _ & Hes' & ->).
    rewrite store_all_cons.
    rewrite (IH (fun H => Hnin (or_intror H)) es' _ Hes').
    apply cache_store_other. intros Heq. apply Hnin. now left.
Qed.

(** Round trip of [cache.addAll]: each request of a list of GET requests
    with different URLs is looked up with what the network answered. *)
Lemma store_all_fetched (net : Network) (rs : list Request) (q : Request) :
  forallb (fun r => String.eqb (method r) "GET") rs = true ->
  List.NoDup (map (fun r => href (url r)) rs) ->
  In q rs ->
  forall es c,
    fetch_all net rs = Some es ->
    cache_match (store_all es c) q = net q /\ net q <> None.
Proof.
  induction rs as [|r rs IH]; intros Hget Hnd Hin es c Hes; [destruct Hin|].
  simpl in Hget, Hnd.
  apply andb_prop in Hget as [Hr Hrs]. apply NoDup_cons_iff in Hnd as [Hnin Hnd].
  apply fetch_all_cons_inv in Hes as (d & es' & Hnet & Hes' & ->).
  rewrite store_all_cons.
  destruct Hin as [<- | Hin].
  - rewrite (store_all_other net rs r Hnin es' _ Hes'), Hnet.
    apply String.eqb_eq in Hr. split; [now apply cache_match_store | discriminate].
  - exact (IH Hrs Hnd Hin es' _ Hes').
Qed.

Lemma shell_requests_distinct (base : URL) :
  List.NoDup (map (fun r => href (url r)) (map (request_of base) CACHE_URLS)).
Proof.
  rewrite map_map.
  assert (Hinj : forall l : list string,
             List.NoDup l -> (forall u, In u l -> In u CACHE_URLS) ->
             List.NoDup (map (fun u => href (url (request_of base u))) l)).
  { induction l as [|u l IH]; simpl; intros Hnd Hsub; [constructor|].
    apply NoDup_cons_iff in Hnd as [Hnin Hnd]. constructor.
    - intros Hin. apply in_map_iff in Hin as (u' & Heq & Hin').
      assert (Hu' : In u' CACHE_URLS) by (apply Hsub; now right).
      assert (Hu : In u CACHE_URLS) by (apply Hsub; now left).
      apply (shell_hrefs_distinct base u' u Hu' Hu) in Heq. congruence.
    - apply IH; [exact Hnd|]. intros u0 Hu0. apply Hsub. now right. }
  apply Hinj; [|auto].
  repeat constructor; simpl; intuition discriminate.
Qed.

(** X6.  From install to the offline shell.  When the worker installs over
    an empty storage and the bulk write of the shell list succeeds, then
    after activation each shell resource is answered without network with
    exactly the response the network gave at install time. *)
Theorem installed_shell_is_served_offline :
  forall (base : URL) (net net' : Network) (u : string),
    protocol base <> "chrome-extension:" ->
    fetch_all net (map (request_of base) CACHE_URLS) <> None ->
    In u CACHE_URLS ->
    phase (run base [(net, EvInstall); (net', EvActivate)] (initial [])) = Activated
    /\ net (request_of base u) <> None
    /\ reply (onfetch base offline (request_of base u)
                (run base [(net, EvInstall); (net', EvActivate)] (initial [])))
       = net (request_of base u).
Proof.
  intros base net net' u Hbase Hshell Hu.
  destruct (fetch_all net (map (request_of base) CACHE_URLS)) as [es|] eqn:Hes;
    [clear Hshell | congruence].
  destruct (store_all_fetched net (map (request_of base) CACHE_URLS) (request_of base u)
              (requests_of_urls_GET base CACHE_URLS) (shell_requests_distinct base)
              (in_map _ _ _ Hu) es [] Hes) as [Hlook Hsome].
  destruct (net (request_of base u)) as [d|] eqn:Hnet; [clear Hsome | congruence].
  (* install *)
  destruct (oninstall_effect base net (initial []))
    as (r & w1 & Hrun1 & Hc1 & Hh1 & _ & _ & Hres & _).
  rewrite Hes in Hc1, Hres. destruct Hres as (-> & _).
  assert (Hc1' : exists fonts, caches w1 = [ (CACHE_NAME, store_all es []);
                                            (EXTERNAL_CACHE_NAME, fonts) ]).
  { rewrite Hc1.
    destruct (fetch_all net (map (request_of base) EXTERNAL_URLS)); simpl; eauto. }
  destruct Hc1' as (fonts & Hc1').
  (* activate *)
  destruct (onactivate_effect (set_phase Installed w1))
    as (w2 & Hrun2 & Hc2 & (Hh2 & _) & _).
  assert (Hrunall : run base [(net, EvInstall); (net', EvActivate)] (initial [])
                    = set_phase Activated w2).
  { simpl. rewrite Hrun1. simpl. now rewrite Hrun2. }
  rewrite Hrunall. split; [reflexivity|]. split; [discriminate|].
  assert (Hhit : storage_match (caches (set_phase Activated w2)) (request_of base u)
                 = Some d).
  { simpl. rewrite Hc2. simpl. rewrite Hc1'. simpl. now rewrite Hlook. }
  assert (Hp : protocol (url (request_of base u)) <> "chrome-extension:").
  { simpl in Hu. destruct Hu as [<- | [<- | [<- | [<- | []]]]]; exact Hbase. }
  rewrite (onfetch_routed base offline (request_of base u) _ eq_refl Hp).
  destruct (cacheFirstStrategy_hit base offline (request_of base u)
              (routed_generation (request_of base u)) _ d Hhit)
    as (w3 & Hrun3 & Hh3 & _).
  unfold respondWith, reply. rewrite Hrun3. simpl.
  now rewrite Hh3, lookup_snoc_length.
Qed.

(** ** The further properties at sample inputs *)

Lemma miss_path_does_not_store_other_statuses_witness :
  storage_match (caches Sample.active) Sample.script = None
  /\ Sample.missing Sample.script = Some (Sample.answer 404 "not found")
  /\ status (Sample.answer 404 "not found") <> 200
  /\ exists w',
      cacheFirstStrategy Sample.app Sample.missing Sample.script CACHE_NAME Sample.active
      = (Ok (Some 0%nat), w')
      /\ heap w' = [mkResponse (Sample.answer 404 "not found") false]
      /\ caches w' = caches Sample.active
      /\ pending w' = [].
Proof.
  assert (Hmiss : storage_match (caches Sample.active) Sample.script = None)
    by (vm_compute; reflexivity).
  assert (Hst : status (Sample.answer 404 "not found") <> 200) by discriminate.
  split; [exact Hmiss|]. split; [reflexivity|]. split; [exact Hst|].
  exact (miss_path_does_not_store_other_statuses
           Sample.app Sample.missing Sample.script CACHE_NAME Sample.active
           _ Hmiss eq_refl Hst).
Defined.

Lemma failed_refresh_is_silent_witness :
  offline Sample.styles = None
  /\ exists w',
      updateCache offline Sample.styles CACHE_NAME Sample.active = (Ok tt, w')
      /\ caches w' = caches Sample.active
      /\ pending w' = pending Sample.active
      /\ trace w' = NetFetch (href (url Sample.styles)) :: trace Sample.active.
Proof.
  split; [reflexivity|].
  exact (failed_refresh_is_silent offline Sample.styles CACHE_NAME Sample.active
           (or_introl eq_refl)).
Defined.

Lemma refresh_overwrites_the_entry_witness :
  method Sample.styles = "GET"
  /\ storage_match (caches Sample.active) Sample.styles
     = Some (Sample.answer 200 "https://app.example/mesurage/styles.css")
  /\ Sample.newer Sample.styles = Some (Sample.answer 200 "newer")
  /\ exists c,
      storage_get
        (caches (run Sample.app [ (Sample.newer, EvSettle 0); (offline, EvSettle 0) ]
                   (snd (cacheFirstStrategy Sample.app offline Sample.styles
                           CACHE_NAME Sample.active))))
        CACHE_NAME = Some c
      /\ cache_match c Sample.styles = Some (Sample.answer 200 "newer").
Proof.
  assert (Hm : method Sample.styles = "GET") by reflexivity.
  assert (Hhit : storage_match (caches Sample.active) Sample.styles
                 = Some (Sample.answer 200 "https://app.example/mesurage/styles.css"))
    by (vm_compute; reflexivity).
  assert (Hnet : Sample.newer Sample.styles = Some (Sample.answer 200 "newer"))
    by reflexivity.
  split; [exact Hm|]. split; [exact Hhit|]. split; [exact Hnet|].
  destruct (refresh_overwrites_the_entry
              Sample.app offline Sample.newer offline Sample.styles CACHE_NAME
              Sample.active _ _ Hm Hhit Hnet eq_refl)
    as (c & Hget & Hmatch & _).
  exists c. split; [exact Hget | exact Hmatch].
Defined.

Lemma installed_shell_is_served_offline_witness :
  protocol Sample.app <> "chrome-extension:"
  /\ fetch_all Sample.online (map (request_of Sample.app) CACHE_URLS) <> None
  /\ In "./styles.css" CACHE_URLS
  /\ reply (onfetch Sample.app offline (request_of Sample.app "./styles.css")
              (run Sample.app [(Sample.online, EvInstall); (offline, EvActivate)]
                 (initial [])))
     = Sample.online (request_of Sample.app "./styles.css").
Proof.
  assert (Hp : protocol Sample.app <> "chrome-extension:") by discriminate.
  assert (Hf : fetch_all Sample.online (map (request_of Sample.app) CACHE_URLS) <> None)
    by (vm_compute; discriminate).
  assert (Hu : In "./styles.css" CACHE_URLS) by (simpl; auto).
  split; [exact Hp|]. split; [exact Hf|]. split; [exact Hu|].
  exact (proj2 (proj2 (installed_shell_is_served_offline
                         Sample.app Sample.online offline "./styles.css" Hp Hf Hu))).
Defined.

Lemma other_generations_are_never_written_witness :
  own_generation DATA_CACHE_NAME = false
  /\ tasks_own Sample.with_data = true
  /\ (storage_get
        (caches (run Sample.app
                   [ (Sample.online, EvInstall); (Sample.online, EvActivate);
                     (Sample.online, EvFetch Sample.script);
                     (Sample.online, EvSettle 0) ]
                   Sample.with_data))
        DATA_CACHE_NAME
      = storage_get (caches Sample.with_data) DATA_CACHE_NAME
      \/ storage_get
           (caches (run Sample.app
                      [ (Sample.online, EvInstall); (Sample.online, EvActivate);
                        (Sample.online, EvFetch Sample.script);
                        (Sample.online, EvSettle 0) ]
                      Sample.with_data))
           DATA_CACHE_NAME
         = None).
Proof.
  assert (Hn : own_generation DATA_CACHE_NAME = false) by reflexivity.
  assert (Ht : tasks_own Sample.with_data = true) by reflexivity.
  split; [exact Hn|]. split; [exact Ht|].
  exact (other_generations_are_never_written Sample.app _ Sample.with_data
           DATA_CACHE_NAME Hn Ht).
Defined.

Lemma failed_install_leaves_the_primary_generation_witness :
  fetch_all Sample.no_shell (map (request_of Sample.app) CACHE_URLS) = None
  /\ exists e w',
      oninstall Sample.app Sample.no_shell (initial []) = (Throw e, w')
      /\ storage_get (caches w') CACHE_NAME = Some []
      /\ skipWaitingFlag w' = false.
Proof.
  assert (H : fetch_all Sample.no_shell (map (request_of Sample.app) CACHE_URLS) = None)
    by (vm_compute; reflexivity).
  split; [exact H|].
  destruct (failed_install_leaves_the_primary_generation
              Sample.app Sample.no_shell (initial []) H)
    as (e & w' & Hrun & Hprimary & Hflag & _).
  exists e, w'. split; [exact Hrun|]. split; [exact Hprimary | exact Hflag].
Defined.

(** ** After the clear-cache message *)

(** While every fetch rejects, no turn but install puts a generation back
    into an empty cache storage: a settling put finds no generation to
    write to, a settling refresh and a fetch event find no network. *)
Lemma deliver_keeps_empty (base : URL) (net : Network) (ev : Event) (w : World) :
  unavailable net ->
  ev <> EvInstall ->
  caches w = [] ->
  caches (deliver base net ev w) = [].
Proof.
  intros Hnet Hev Hc. destruct ev as [| | request | d | i]; unfold deliver.
  - contradiction.
  - destruct (phase w); try exact Hc.
    destruct (onactivate_effect w) as (w' & Hrun & Hc' & _).
    rewrite Hrun. simpl. now rewrite Hc', Hc.
  - destruct (phase w); try exact Hc.
    destruct (String.eqb (method request) "GET") eqn:Hm.
    2:{ unfold onfetch. now rewrite Hm. }
    destruct (String.eqb (protocol (url request)) "chrome-extension:") eqn:Hp.
    { unfold onfetch. now rewrite Hm, Hp. }
    apply String.eqb_eq in Hm. apply String.eqb_neq in Hp.
    rewrite (onfetch_routed base net request w Hm Hp). unfold respondWith.
    destruct (cacheFirstStrategy_cases base net request (routed_generation request) w)
      as (r & w' & Hrun & Hcase).
    rewrite Hrun. simpl. rewrite Hc in Hcase. simpl in Hcase.
    rewrite (Hnet request) in Hcase. destruct Hcase as (Hc' & _). congruence.
  - assert (Hmsg : caches (snd (onmessage d w)) = []).
    { destruct (onmessage_effect d w) as (w' & Hrun & Hc' & _).
      rewrite Hrun. simpl. rewrite Hc'.
      now destruct (data_type_is d "CLEAR_CACHE"). }
    now destruct (phase w).
  - destruct (pending w !! i) as [t|]; [|exact Hc].
    destruct t as [cacheName request d | request cacheName]; simpl.
    + now rewrite Hc.
    + destruct (updateCache_offline net request cacheName
                  (set_pending (delete i) w) (Hnet request))
        as (w' & Hrun & Hc' & _).
      rewrite Hrun. simpl. now rewrite Hc'.
Qed.

Lemma run_keeps_empty (base : URL) (turns : list (Network * Event)) :
  Forall (fun turn => unavailable (fst turn) /\ snd turn <> EvInstall) turns ->
  forall w, caches w = [] -> caches (run base turns w) = [].
Proof.
  induction turns as [|[net ev] turns IH]; intros Hall w Hc; simpl; [exact Hc|].
  apply Forall_cons_iff in Hall as [[Hnet Hev] Hall].
  apply IH; [exact Hall|]. now apply deliver_keeps_empty.
Qed.

(** C10 (as amended).  The clear-cache message deletes every generation,
    the three current ones included: when its promise settles,
    [caches.keys()] enumerates nothing and no request matches.  The
    storage stays empty through the turns that follow for as long as the
    network is unavailable (fetch events, messages, pending promises that
    settle), and an intercepted GET request without network then ends in
    the fallback of the strategy: the error is logged and the reply is the
    synthesized 408 response, or [undefined] for a navigation, whose
    offline document is gone with the rest. *)
Theorem clear_cache_then_offline_request_falls_back :
  forall (base : URL) (turns : list (Network * Event)) (net : Network)
         (request : Request) (w : World),
    method request = "GET" ->
    protocol (url request) <> "chrome-extension:" ->
    net request = None ->
    Forall (fun turn => unavailable (fst turn) /\ snd turn <> EvInstall) turns ->
    exists w',
      onmessage (Some (Some "CLEAR_CACHE")) w = (Ok tt, w')
      /\ caches w' = []
      /\ fst (caches_keys w') = Ok []
      /\ (forall q, storage_match (caches w') q = None)
      /\ caches (run base turns w') = []
      /\ exists r w'',
          onfetch base net request (run base turns w') = (RespondWith (Ok r), w'')
          /\ In (Console LError ("[SW] Erreur lors de la recuperation: "
                                 ++ href (url request))%string) (trace w'')
          /\ (if String.eqb (destination request) "document"
              then r = None
              else r = Some (length (heap (run base turns w')))
                   /\ heap w'' !! length (heap (run base turns w'))
                      = Some offline_response).
Proof.
  intros base turns net request w Hm Hp Hnet Hturns.
  destruct (onmessage_clear_effect w) as (w' & Hrun & Hc & _).
  exists w'. split; [exact Hrun|]. split; [exact Hc|].
  split; [run_code; now rewrite Hc|].
  split; [intros q; now rewrite Hc|].
  pose proof (run_keeps_empty base turns Hturns w' Hc) as Hc1.
  split; [exact Hc1|].
  set (w1 := run base turns w') in *.
  rewrite (onfetch_routed base net request w1 Hm Hp). unfold respondWith.
  assert (Hmiss : storage_match (caches w1) request = None) by now rewrite Hc1.
  destruct (cacheFirstStrategy_offline_miss base net request
              (routed_generation request) w1 Hmiss Hnet)
    as (w0 & Hc0 & Hh0 & _ & Hlog & Hrun0).
  rewrite Hrun0.
  destruct (String.eqb (destination request) "document").
  - run_code. rewrite Hc0, Hc1. cbn.
    eexists _, _. split; [reflexivity|]. split; [now right | reflexivity].
  - run_code. eexists _, _. split; [reflexivity|]. cbn.
    split; [exact Hlog|]. rewrite Hh0. split; [reflexivity|].
    apply lookup_snoc_length.
Qed.

(** ** The amended properties at sample inputs *)


(** C8 (as stated) fails.  After install, activate and a clear-cache
    message, a navigation request that no generation holds, with no
    network, is answered with [undefined]: no generation holds the offline
    document any more. *)
Lemma offline_navigation_after_clear_gets_undefined :
  method Sample.unknown = "GET"
  /\ destination Sample.unknown = "document"
  /\ storage_match (caches Sample.cleared) Sample.unknown = None
  /\ offline Sample.unknown = None
  /\ fst (cacheFirstStrategy Sample.app offline Sample.unknown CACHE_NAME Sample.cleared)
     = Ok None
  /\ fst (onfetch Sample.app offline Sample.unknown Sample.cleared)
     = RespondWith (Ok None)
  /\ storage_match (caches Sample.cleared) (request_of Sample.app "./index.html") = None.
Proof. vm_compute. repeat split. Qed.

(** C10 (as stated) fails.  The stylesheet is answered from the cache and
    its refresh is in flight when the clear-cache message empties the
    storage; the refresh then gets its answer, opens the primary
    generation again and writes it.  A later request for the stylesheet,
    without network, is answered from the cache, not by the fallback. *)
Lemma refresh_in_flight_survives_clear_cache :
  caches (run Sample.app [ (Sample.online, EvFetch Sample.styles);
                           (Sample.online, EvMessage Sample.clear_cache) ]
            Sample.active) = []
  /\ method Sample.styles = "GET"
  /\ offline Sample.styles = None
  /\ storage_match (caches Sample.refreshed_after_clear) Sample.styles
     = Some (Sample.answer 200 "newer")
  /\ reply (onfetch Sample.app offline Sample.styles Sample.refreshed_after_clear)
     = Some (Sample.answer 200 "newer").
Proof. vm_compute. repeat split. Qed.

Lemma clear_cache_then_offline_request_falls_back_witness :
  method Sample.index = "GET"
  /\ protocol (url Sample.index) <> "chrome-extension:"
  /\ offline Sample.index = None
  /\ Forall (fun turn => unavailable (fst turn) /\ snd turn <> EvInstall)
       [ (offline, EvSettle 0) ]
  /\ storage_match (caches Sample.active) Sample.index
     = Some (Sample.answer 200 "https://app.example/mesurage/index.html")
  /\ exists w' w'',
      onmessage (Some (Some "CLEAR_CACHE"))
        (deliver Sample.app Sample.online (EvFetch Sample.index) Sample.active)
      = (Ok tt, w')
      /\ caches (run Sample.app [ (offline, EvSettle 0) ] w') = []
      /\ onfetch Sample.app offline Sample.index
           (run Sample.app [ (offline, EvSettle 0) ] w')
         = (RespondWith (Ok None), w'').
Proof.
  assert (Hm : method Sample.index = "GET") by reflexivity.
  assert (Hp : protocol (url Sample.index) <> "chrome-extension:") by discriminate.
  assert (Ht : Forall (fun turn => unavailable (fst turn) /\ snd turn <> EvInstall)
                 [ (offline, EvSettle 0) ]).
  { constructor; [|constructor]. split; [intros r; reflexivity | discriminate]. }
  split; [exact Hm|]. split; [exact Hp|]. split; [reflexivity|].
  split; [exact Ht|]. split; [vm_compute; reflexivity|].
  destruct (clear_cache_then_offline_request_falls_back
              Sample.app [ (offline, EvSettle 0) ] offline Sample.index
              (deliver Sample.app Sample.online (EvFetch Sample.index) Sample.active)
              Hm Hp eq_refl Ht)
    as (w' & Hrun & _ & _ & _ & Hc & r & w'' & Hfetch & _ & Hr).
  exists w', w''. split; [exact Hrun|]. split; [exact Hc|].
  simpl in Hr. subst r. exact Hfetch.
Defined.
